(** * farrow-auth-session: session middleware and cookie-backed store

    A shallow embedding of [src/auth.ts] (the session context, the
    middleware built by [createFarrowSession], and the cookie-backed
    store [cookieSessionStore]) together with the properties of its
    specification.

    Conventions of the embedding
    - A JavaScript value is a [JsVal]; a position that may hold
      [undefined] is an [option JsVal] with [None] for [undefined].
      A [boolean | undefined] result is an [option bool].
    - Numbers are the integers the code computes with (millisecond
      timestamps and durations), modelled as [Z].
    - farrow-pipeline contexts are request scoped containers; one request
      is one value of [World], threaded through the calls in the order
      the [await]s run them.
    - A farrow-http [Response] is the ordered list of the mutations it
      carries; [Response.merge] concatenates.
    - The cipher, the hash and the JSON codec are black boxes (class
      [Runtime]); the text they produce is the carrier [Text].
    - Calls that throw (a rejected promise) are outside the model, except
      where the source catches the exception. *)

From Stdlib Require Import ZArith String List Bool Lia.
From Stdlib.Strings Require Import Byte.
From stdpp Require Import base option gmap strings.
Import ListNotations.

Local Open Scope string_scope.
Local Open Scope list_scope.

(** ** JavaScript values *)

#[local] Set Warnings "-register-all".

Inductive JsVal : Type :=
| VNull
| VBool (b : bool)
| VNum (n : Z)
| VStr (s : string)
| VArr (items : list JsVal)
| VObj (fields : list (string * JsVal)).

(** ToBoolean. *)
Definition truthy (v : JsVal) : bool :=
  match v with
  | VNull => false
  | VBool b => b
  | VNum n => negb (n =? 0)%Z
  | VStr s => negb (String.eqb s "")
  | VArr _ => true
  | VObj _ => true
  end.

(** [!x] for an [x] that may be [undefined]. *)
Definition falsy (x : option JsVal) : bool :=
  match x with
  | None => true
  | Some v => negb (truthy v)
  end.

(** [!r] for a [boolean | undefined]. *)
Definition falsy_result (r : option bool) : bool :=
  match r with
  | Some true => false
  | _ => true
  end.

(** The literal [{}]. *)
Definition emptyObject : JsVal := VObj [].

(** ** Time constants ([utils.ts])

    [utils.ts] is not among the sources; its test pins the value. *)
Definition oneMinute : Z := 60.

(** ** The payload envelope of the cookie store: [{ _data, _expires }] *)

Record Envelope : Type := mkEnvelope {
  _data : JsVal;
  _expires : Z
}.

(** ** Black boxes: node's [crypto], [Buffer] and [JSON]

    [aes_decrypt] and [JSON_parse] return [None] where the JavaScript
    call throws.  [JSON_parse] is typed at the envelope the store writes:
    both [create] and [set] serialise [{ _data, _expires }]. *)

Class Runtime : Type := {
  Text : Type;
  text_of_string : string -> Text;
  sha256 : string -> list Byte.byte;
  aes_encrypt : list Byte.byte -> list Byte.byte -> Text -> Text;
  aes_decrypt : list Byte.byte -> list Byte.byte -> Text -> option Text;
  JSON_stringify : Envelope -> Text;
  JSON_parse : Text -> option Envelope
}.

(** What the black boxes are assumed to satisfy where a property needs
    it: deciphering with the key and IV of the encryption gives the
    plaintext back, and parsing a serialised envelope gives it back. *)
Class RuntimeLaws (rt : Runtime) : Prop := {
  decrypt_encrypt : forall key iv p,
    aes_decrypt key iv (aes_encrypt key iv p) = Some p;
  parse_stringify : forall e, JSON_parse (JSON_stringify e) = Some e
}.

(** ** Responses *)

Section Http.
Context {rt : Runtime}.

(** [SetOption] of the cookies package; [expires] is milliseconds since
    the epoch. *)
Record SetOption : Type := mkSetOption {
  maxAge : option Z;
  expires : option Z;
  httpOnly : option bool;
  overwrite : option bool;
  path : option string;
  domain : option string;
  sameSite : option string
}.

Inductive Mutation : Type :=
| Cookie (name : string) (value : Text) (options : SetOption)
| Json (body : JsVal)
| Status (code : Z).

Definition Response : Type := list Mutation.

(** [Response.merge(...responses)] *)
Definition merge (responses : list Response) : Response := concat responses.

(** [Response.json({ error: msg }).status(code)] *)
Definition error_response (msg : string) (code : Z) : Response :=
  [Json (VObj [("error", VStr msg)]); Status code].

(** The status a response ends up with: the last one set, 200 by default. *)
Definition status_of (r : Response) : Z :=
  fold_left (fun acc m => match m with Status c => c | _ => acc end) r 200%Z.

Definition is_cookie (m : Mutation) : bool :=
  match m with Cookie _ _ _ => true | _ => false end.

Record RequestInfo : Type := mkRequestInfo {
  pathname : string;
  cookies : option (gmap string Text)
}.

End Http.

(** ** The session context and the middleware ([createSessionCtx],
       [createFarrowSession]) *)

Section Session.
Context {rt : Runtime}.

(** [X] is whatever the store and the parser keep for themselves in the
    request (the metadata channel, a backend handle, the clock). *)
Context {X : Type}.

(** The part of the request state the store and the parser can reach:
    [sessionHeaderCtx] is exported, the rest is theirs.  The flag context
    [modifiedStateCtx] is private to [auth.ts], and the stores and parsers
    modelled here do not hold the session context. *)
Record Shared : Type := mkShared {
  sessionHeader : list Response;
  ext : X
}.

Definition Op (A : Type) : Type := Shared -> A * Shared.

(** [SessionStore<UserData, Credit>].  [get]: [None] is [undefined]
    (internal error), [Some VNull] is [null] (no such session). *)
Record SessionStore : Type := mkSessionStore {
  store_get : JsVal -> Op (option JsVal);
  store_set : JsVal -> Op (option bool);
  store_create : option JsVal -> Op (option JsVal);
  store_destroy : Op (option bool);
  store_touch : option (Op (option bool))
}.

(** [SessionParser<Credit>]; [get] returns the credential or [null]. *)
Record SessionParser : Type := mkSessionParser {
  parser_get : RequestInfo -> Op JsVal;
  parser_set : Op Response;
  parser_remove : Op Response
}.

Record SessionConfig : Type := mkSessionConfig {
  autoCreateOnMissing : bool;
  autoSave : bool;
  sessionParser : SessionParser;
  sessionStore : SessionStore
}.

(** What a request does, in order: the calls made on the store and on
    the parser, every write to [modifiedStateCtx], and the call of
    [next]. *)
Inductive Event : Type :=
| ParserGet
| ParserSet
| ParserRemove
| StoreGet (credential : JsVal)
| StoreSet (data : JsVal)
| StoreCreate (data : option JsVal)
| StoreDestroy
| StoreTouch
| ModifiedWrite (b : bool)
| Next.

(** The request scoped state: the value of the session context, the
    value of [modifiedStateCtx], the shared part, and the trace. *)
Record World : Type := mkWorld {
  userData : option JsVal;
  modifiedState : bool;
  shared : Shared;
  trace : list Event
}.

(** A request starts from the contexts' defaults. *)
Definition initial_world (defaultData : option JsVal) (x : X) : World :=
  {| userData := defaultData; modifiedState := false;
     shared := {| sessionHeader := []; ext := x |}; trace := [] |}.

(** [modifiedStateCtx.set(b)] *)
Definition write_modified (b : bool) (w : World) : World :=
  {| userData := userData w; modifiedState := b;
     shared := shared w; trace := trace w ++ [ModifiedWrite b] |}.

(** The intercepted [set] of the proxy: mark, then store the value. *)
Definition ctx_set (value : option JsVal) (w : World) : World :=
  let w1 := write_modified true w in
  {| userData := value; modifiedState := modifiedState w1;
     shared := shared w1; trace := trace w1 |}.

(** A call on the store or the parser. *)
Definition call {A : Type} (e : Event) (op : Op A) (w : World) : A * World :=
  let (a, s) := op (shared w) in
  (a, {| userData := userData w; modifiedState := modifiedState w;
         shared := s; trace := trace w ++ [e] |}).

(** [sessionHeaderCtx.set([...sessionHeaderCtx.get(), h])] *)
Definition push_header (h : Response) (w : World) : World :=
  {| userData := userData w; modifiedState := modifiedState w;
     shared := {| sessionHeader := sessionHeader (shared w) ++ [h];
                  ext := ext (shared w) |};
     trace := trace w |}.

Variable config : SessionConfig.

Definition internal_error : Response :=
  error_response "Internal Server Error" 500.
Definition set_failed : Response :=
  error_response "SessionStore Set Failed" 401.
Definition touch_failed : Response :=
  error_response "Session Touch Failed" 401.

(** [createNewAuth]: [Some r] is the error response, [None] is the
    source's [null]. *)
Definition createNewAuth (w : World) : option Response * World :=
  let (createResult, w1) :=
    call (StoreCreate None) (store_create (sessionStore config) None) w in
  if falsy createResult then (Some internal_error, w1)
  else
    let w2 := ctx_set createResult w1 in
    let (sessionHeader, w3) := call ParserSet (parser_set (sessionParser config)) w2 in
    (None, push_header sessionHeader w3).

(** The middleware up to the reset of the flag: [Some r] where the source
    returns [r] at once. *)
Definition resolve (request : RequestInfo) (w : World) : option Response * World :=
  let (unverifiedUserCredentials, w1) :=
    call ParserGet (parser_get (sessionParser config) request) w in
  if negb (truthy unverifiedUserCredentials) then
    let (sessionHeader, w2) :=
      call ParserRemove (parser_remove (sessionParser config)) w1 in
    let w3 := push_header sessionHeader w2 in
    if autoCreateOnMissing config then createNewAuth w3 else (None, w3)
  else
    let (getUserDataResult, w2) :=
      call (StoreGet unverifiedUserCredentials)
           (store_get (sessionStore config) unverifiedUserCredentials) w1 in
    match getUserDataResult with
    | None => (Some internal_error, w2)
    | Some VNull => createNewAuth w2
    | Some sessionUserData => (None, ctx_set (Some sessionUserData) w2)
    end.

(** The three results of a write, as the middleware maps them. *)
Definition map_write_result (r : option bool) (failed : Response) : option Response :=
  match r with
  | None => Some internal_error
  | Some false => Some failed
  | Some true => None
  end.

(** The [autoSave] block after [next()]: [Some r] where the source
    returns the error response [r]. *)
Definition autosave (w : World) : option Response * World :=
  if autoSave config then
    match userData w with
    | Some sessionUserData =>
        if modifiedState w then
          let (setResult, w1) :=
            call (StoreSet sessionUserData)
                 (store_set (sessionStore config) sessionUserData) w in
          (map_write_result setResult set_failed, w1)
        else
          match store_touch (sessionStore config) with
          | Some touch =>
              let (touchResult, w1) := call StoreTouch touch w in
              (map_write_result touchResult touch_failed, w1)
          | None =>
              let (setResult, w1) :=
                call (StoreSet sessionUserData)
                     (store_set (sessionStore config) sessionUserData) w in
              (map_write_result setResult set_failed, w1)
          end
    | None => (None, w)
    end
  else (None, w).

(** [sessionUserDataCtx.regenerate] *)
Definition regenerate (w : World) : option bool * World :=
  match userData w with
  | None => (Some false, w)
  | Some data =>
      let (createResult, w1) :=
        call (StoreCreate (Some data))
             (store_create (sessionStore config) (Some data)) w in
      match createResult with
      | None => (None, w1)
      | Some _ =>
          let (sessionHeader, w2) :=
            call ParserSet (parser_set (sessionParser config)) w1 in
          (Some true, push_header sessionHeader w2)
      end
  end.

(** [sessionUserDataCtx.destroy] *)
Definition destroy (w : World) : option bool * World :=
  match userData w with
  | None => (Some false, w)
  | Some _ =>
      let (destroyResult, w1) :=
        call StoreDestroy (store_destroy (sessionStore config)) w in
      if falsy_result destroyResult then (destroyResult, w1)
      else
        let w2 := ctx_set None w1 in
        let (sessionHeader, w3) :=
          call ParserRemove (parser_remove (sessionParser config)) w2 in
        (Some true, push_header sessionHeader w3)
  end.

(** [r || false] for a [boolean | undefined]. *)
Definition or_false (r : option bool) : option bool :=
  match r with
  | Some true => Some true
  | _ => Some false
  end.

(** [sessionUserDataCtx.saveToStore] *)
Definition saveToStore (w : World) : option bool * World :=
  match userData w with
  | None => (Some false, w)
  | Some sessionUserData =>
      if modifiedState w then
        let (setResult, w1) :=
          call (StoreSet sessionUserData)
               (store_set (sessionStore config) sessionUserData) w in
        (or_false setResult, w1)
      else
        match store_touch (sessionStore config) with
        | Some touch =>
            let (touchResult, w1) := call StoreTouch touch w in
            (or_false touchResult, w1)
        | None =>
            let (setResult, w1) :=
              call (StoreSet sessionUserData)
                   (store_set (sessionStore config) sessionUserData) w in
            (or_false setResult, w1)
        end
  end.

(** The downstream handler: a program over the session context it is
    handed, ending in the response it returns. *)
Inductive Handler : Type :=
| Return (response : Response)
| CtxGet (k : option JsVal -> Handler)
| CtxSet (value : option JsVal) (k : Handler)
| CtxIsModified (k : bool -> Handler)
| CtxSaveToStore (k : option bool -> Handler)
| CtxRegenerate (k : option bool -> Handler)
| CtxDestroy (k : option bool -> Handler).

Fixpoint run_handler (h : Handler) (w : World) : Response * World :=
  match h with
  | Return response => (response, w)
  | CtxGet k => run_handler (k (userData w)) w
  | CtxSet value k => run_handler k (ctx_set value w)
  | CtxIsModified k => run_handler (k (modifiedState w)) w
  | CtxSaveToStore k => let (r, w1) := saveToStore w in run_handler (k r) w1
  | CtxRegenerate k => let (r, w1) := regenerate w in run_handler (k r) w1
  | CtxDestroy k => let (r, w1) := destroy w in run_handler (k r) w1
  end.

(** [await next()] *)
Definition call_next (next : Handler) (w : World) : Response * World :=
  run_handler next
    {| userData := userData w; modifiedState := modifiedState w;
       shared := shared w; trace := trace w ++ [Next] |}.

(** The middleware from the reset of the flag on. *)
Definition after_resolve (next : Handler) (w : World) : Response * World :=
  let w1 := write_modified false w in
  let (response, w2) := call_next next w1 in
  match autosave w2 with
  | (Some errorResponse, w3) => (errorResponse, w3)
  | (None, w3) =>
      let sessionHeaders := sessionHeader (shared w3) in
      (merge sessionHeaders ++ response, w3)
  end.

(** The middleware of [createFarrowSession]. *)
Definition middleware (request : RequestInfo) (next : Handler) (w : World)
  : Response * World :=
  match resolve request w with
  | (Some errorResponse, w1) => (errorResponse, w1)
  | (None, w1) => after_resolve next w1
  end.

End Session.

(** ** The cookie-backed store ([cookieSessionStore]) *)

Section CookieStore.
Context {rt : Runtime}.

Local Open Scope Z_scope.

(** [CookieOptions] is [SetOption] without [expires] (left [None]). *)
Definition defaultCookieOptions : SetOption :=
  {| maxAge := Some (30 * oneMinute * 1000); expires := None;
     httpOnly := Some true; overwrite := Some true;
     path := None; domain := None; sameSite := None |}.

(** The value of [sessionMetaDataCtx]. *)
Record SessionMeta : Type := mkSessionMeta {
  sessionId : string;
  expiresTime : Z
}.

(** [CookieSessionStoreOptions]; an absent field is [None]. *)
Record CookieSessionStoreOptions : Type := mkCookieSessionStoreOptions {
  secret : string;
  sessionStoreKey : option string;
  dataCreator : option (RequestInfo -> option JsVal -> JsVal);
  rolling : option bool;
  renew : option bool;
  renewBefore : option Z;
  cookieOptions : option SetOption
}.

(** The fields of [options]: the defaults, overridden by the fields the
    caller gave. *)
Definition options_sessionStoreKey (o : CookieSessionStoreOptions) : string :=
  default "sess:data" (sessionStoreKey o).
Definition options_cookieOptions (o : CookieSessionStoreOptions) : SetOption :=
  default defaultCookieOptions (cookieOptions o).
Definition options_rolling (o : CookieSessionStoreOptions) : bool :=
  default false (rolling o).
Definition options_renew (o : CookieSessionStoreOptions) : bool :=
  default false (renew o).
Definition options_renewBefore (o : CookieSessionStoreOptions) : Z :=
  default (10 * oneMinute * 1000) (renewBefore o).

(** The two checks of the constructor: the message it throws, if any. *)
Definition cookieSessionStore_throws (o : CookieSessionStoreOptions) : option string :=
  if String.eqb (secret o) "" then
    Some "Secret is required for cookieSessionStore. Please provide a secret key for encryption."
  else if options_rolling o && options_renew o then
    Some "Cannot use both rolling and renew modes at the same time"
  else None.

(** [createHash('sha256').update(sessionId).digest().slice(0, 16)] *)
Definition idToIv (sessionId : string) : list byte :=
  firstn 16 (sha256 sessionId).

(** [createHash('sha256').update(options.secret).digest()] *)
Definition key (o : CookieSessionStoreOptions) : list byte :=
  sha256 (secret o).

(** [options.cookieOptions.maxAge || (30 * oneMinute * 1000)] *)
Definition store_maxAge (o : CookieSessionStoreOptions) : Z :=
  match maxAge (options_cookieOptions o) with
  | Some m => if m =? 0 then 30 * oneMinute * 1000 else m
  | None => 30 * oneMinute * 1000
  end.

(** [{ ...options.cookieOptions, maxAge: maxAge }] *)
Definition write_cookieOptions (o : CookieSessionStoreOptions) : SetOption :=
  let c := options_cookieOptions o in
  {| maxAge := Some (store_maxAge o); expires := expires c;
     httpOnly := httpOnly c; overwrite := overwrite c;
     path := path c; domain := domain c; sameSite := sameSite c |}.

(** [{ ...options.cookieOptions, expires: new Date(0), maxAge: 0 }] *)
Definition clear_cookieOptions (o : CookieSessionStoreOptions) : SetOption :=
  let c := options_cookieOptions o in
  {| maxAge := Some 0; expires := Some 0;
     httpOnly := httpOnly c; overwrite := overwrite c;
     path := path c; domain := domain c; sameSite := sameSite c |}.

(** [Response.cookie(options.sessionStoreKey, '', { ... })]: the mutation
    that clears the session-data cookie. *)
Definition clear_cookie (o : CookieSessionStoreOptions) : Response :=
  [Cookie (options_sessionStoreKey o) (text_of_string "") (clear_cookieOptions o)].

(** The cipher text of an envelope under a session id. *)
Definition encrypt_envelope (o : CookieSessionStoreOptions) (sessionId : string)
    (dataToStore : Envelope) : Text :=
  aes_encrypt (key o) (idToIv sessionId) (JSON_stringify dataToStore).

(** The contexts the store works on within a request: the request
    ([useRequestInfo]), [sessionMetaDataCtx] and [authHeaderCtx]. *)
Record Ambient : Type := mkAmbient {
  requestInfo : RequestInfo;
  sessionMetaData : option SessionMeta;
  authHeader : list Response
}.

Definition set_sessionMetaData (m : option SessionMeta) (a : Ambient) : Ambient :=
  {| requestInfo := requestInfo a; sessionMetaData := m;
     authHeader := authHeader a |}.

(** [authHeaderCtx.set([...authHeaderCtx.get(), h])] *)
Definition push_authHeader (h : Response) (a : Ambient) : Ambient :=
  {| requestInfo := requestInfo a; sessionMetaData := sessionMetaData a;
     authHeader := authHeader a ++ [h] |}.

(** [create]; [ulid] is the identifier [ulid()] returns and [now] the
    value of [Date.now()]. *)
Definition cookieSessionStore_create (o : CookieSessionStoreOptions)
    (ulid : string) (now : Z) (userData : option JsVal) (a : Ambient)
  : option JsVal * Ambient :=
  let sessionId := ulid in
  let expiresTime := now + store_maxAge o in
  let sessionMeta := {| sessionId := sessionId; expiresTime := expiresTime |} in
  let a1 := set_sessionMetaData (Some sessionMeta) a in
  let initialData :=
    match dataCreator o with
    | Some creator => creator (requestInfo a1) userData
    | None =>
        match userData with
        | Some v => if truthy v then v else emptyObject
        | None => emptyObject
        end
    end in
  let dataToStore := {| _data := initialData; _expires := expiresTime |} in
  let encrypted := encrypt_envelope o sessionId dataToStore in
  (Some initialData,
   push_authHeader
     [Cookie (options_sessionStoreKey o) encrypted (write_cookieOptions o)] a1).

(** The first [try] of [get]: decipher and parse; [None] is the [catch]. *)
Definition decrypt_envelope (o : CookieSessionStoreOptions) (sessionId : string)
    (sessionData : Text) : option Envelope :=
  match aes_decrypt (key o) (idToIv sessionId) sessionData with
  | Some decrypted => JSON_parse decrypted
  | None => None
  end.

(** [requestInfo.cookies?.[options.sessionStoreKey]] *)
Definition read_cookie (o : CookieSessionStoreOptions) (r : RequestInfo) : option Text :=
  match cookies r with
  | Some jar => jar !! options_sessionStoreKey o
  | None => None
  end.

(** [decryptedData._expires && decryptedData._expires < now] *)
Definition expired (e : Envelope) (now : Z) : bool :=
  negb (_expires e =? 0) && (_expires e <? now).

(** [get]; [now] is the value of [Date.now()].  The second [try] only
    reads fields of the parsed envelope, so its [catch] (the [undefined]
    result) is not reached. *)
Definition cookieSessionStore_get (o : CookieSessionStoreOptions)
    (now : Z) (sessionId : string) (a : Ambient) : option JsVal * Ambient :=
  match read_cookie o (requestInfo a) with
  | None => (Some VNull, a)
  | Some sessionData =>
      match decrypt_envelope o sessionId sessionData with
      | None => (Some VNull, push_authHeader (clear_cookie o) a)
      | Some decryptedData =>
          if expired decryptedData now then (Some VNull, a)
          else
            let newExpiresTime :=
              if options_rolling o then now + store_maxAge o
              else if options_renew o then
                let timeLeft := _expires decryptedData - now in
                if timeLeft <? options_renewBefore o then now + store_maxAge o
                else _expires decryptedData
              else _expires decryptedData in
            let sessionMeta :=
              {| sessionId := sessionId; expiresTime := newExpiresTime |} in
            (Some (_data decryptedData), set_sessionMetaData (Some sessionMeta) a)
      end
  end.

(** [set]; [now] is the value of [Date.now()]. *)
Definition cookieSessionStore_set (o : CookieSessionStoreOptions)
    (now : Z) (sessionData : JsVal) (a : Ambient) : option bool * Ambient :=
  match sessionMetaData a with
  | None => (Some false, a)
  | Some sessionMeta =>
      let expiresTime' :=
        if options_rolling o then now + store_maxAge o
        else if options_renew o then
          let timeLeft := expiresTime sessionMeta - now in
          if timeLeft <? options_renewBefore o then now + store_maxAge o
          else expiresTime sessionMeta
        else expiresTime sessionMeta in
      let updatedSessionMeta :=
        {| sessionId := sessionId sessionMeta; expiresTime := expiresTime' |} in
      let a1 := set_sessionMetaData (Some updatedSessionMeta) a in
      let dataToStore := {| _data := sessionData; _expires := expiresTime' |} in
      let encrypted := encrypt_envelope o (sessionId sessionMeta) dataToStore in
      (Some true,
       push_authHeader
         [Cookie (options_sessionStoreKey o) encrypted (write_cookieOptions o)] a1)
  end.

(** [destroy] *)
Definition cookieSessionStore_destroy (o : CookieSessionStoreOptions)
    (a : Ambient) : option bool * Ambient :=
  (Some true, set_sessionMetaData None (push_authHeader (clear_cookie o) a)).

(** The next request of a client that kept the cookies it was sent: the
    session-data cookie holds [value]; the contexts are fresh. *)
Definition echo_request (o : CookieSessionStoreOptions) (value : Text) : Ambient :=
  {| requestInfo :=
       {| pathname := "/";
          cookies := Some {[ options_sessionStoreKey o := value ]} |};
     sessionMetaData := None; authHeader := [] |}.

(** The value of the cookie the store emitted last. *)
Definition emitted_value (a : Ambient) : option Text :=
  match last (authHeader a) with
  | Some [Cookie _ value _] => Some value
  | _ => None
  end.

(** [create] in one request, then [get] in the next one, which carries
    the session-data cookie [create] emitted and presents the session id
    [create] published. *)
Definition create_then_get (o : CookieSessionStoreOptions) (ulid : string)
    (t0 t1 : Z) (userData : option JsVal) (a : Ambient) : option JsVal :=
  let a1 := snd (cookieSessionStore_create o ulid t0 userData a) in
  match emitted_value a1, sessionMetaData a1 with
  | Some value, Some sessionMeta =>
      fst (cookieSessionStore_get o t1 (sessionId sessionMeta) (echo_request o value))
  | _, _ => None
  end.

End CookieStore.

(** ** A symbolic runtime

    An instance of the black boxes for the worked examples: text is kept
    as the term that produced it, and deciphering succeeds exactly with
    the key and the IV of the encryption. *)

Inductive SymText : Type :=
| Lit (s : string)
| JsonText (e : Envelope)
| CipherText (key iv : list byte) (plain : SymText).

Fixpoint bytes_eqb (a b : list byte) : bool :=
  match a, b with
  | [], [] => true
  | x :: a', y :: b' => Byte.eqb x y && bytes_eqb a' b'
  | _, _ => false
  end.

Definition sym_decrypt (key iv : list byte) (c : SymText) : option SymText :=
  match c with
  | CipherText key' iv' plain =>
      if bytes_eqb key key' && bytes_eqb iv iv' then Some plain else None
  | _ => None
  end.

Definition sym_parse (t : SymText) : option Envelope :=
  match t with
  | JsonText e => Some e
  | _ => None
  end.

(** Thirty-two bytes out of the input, padded with zeros. *)
Definition sym_sha256 (s : string) : list byte :=
  firstn 32 (list_byte_of_string s ++ repeat x00 32).

#[export] Instance symbolic : Runtime := {|
  Text := SymText;
  text_of_string := Lit;
  sha256 := sym_sha256;
  aes_encrypt := CipherText;
  aes_decrypt := sym_decrypt;
  JSON_stringify := JsonText;
  JSON_parse := sym_parse
|}.

(** ** Mock stores and parsers, as the test suite builds them *)

Definition mockStore (getResult : option JsVal) (setResult : option bool)
    (createResult : option JsVal) (destroyResult : option bool)
    (touchResult : option (option bool)) : @SessionStore symbolic unit :=
  {| store_get := fun _ s => (getResult, s);
     store_set := fun _ s => (setResult, s);
     store_create := fun _ s => (createResult, s);
     store_destroy := fun s => (destroyResult, s);
     store_touch :=
       match touchResult with
       | Some r => Some (fun s => (r, s))
       | None => None
       end |}.

Definition no_options : SetOption :=
  {| maxAge := None; expires := None; httpOnly := None; overwrite := None;
     path := None; domain := None; sameSite := None |}.

Definition mock_set_cookie : @Response symbolic :=
  [Cookie "sessionId" (Lit "new-session") no_options].

Definition mock_remove_cookie : @Response symbolic :=
  [Cookie "sessionId" (Lit "")
     {| maxAge := Some (-1)%Z; expires := None; httpOnly := None;
        overwrite := None; path := None; domain := None; sameSite := None |}].

Definition mockParser (credential : JsVal) : @SessionParser symbolic unit :=
  {| parser_get := fun _ s => (credential, s);
     parser_set := fun s => (mock_set_cookie, s);
     parser_remove := fun s => (mock_remove_cookie, s) |}.

Definition mock_request : @RequestInfo symbolic :=
  {| pathname := "/"; cookies := None |}.

Definition user_123 : JsVal := VObj [("id", VStr "123")].

(** A handler that only answers. *)
Definition answer : @Handler symbolic :=
  Return [Json (VObj [("success", VBool true)])].

(** The configurations of the worked examples. *)

(** A valid credential resolved to [user_123]; no automatic save. *)
Definition valid_credential_config : @SessionConfig symbolic unit :=
  {| autoCreateOnMissing := false; autoSave := false;
     sessionParser := mockParser (VStr "session-id");
     sessionStore := mockStore (Some user_123) (Some true) (Some user_123) (Some true) None |}.

(** No credential, automatic creation, and a store whose [create] fails. *)
Definition create_fails_config : @SessionConfig symbolic unit :=
  {| autoCreateOnMissing := true; autoSave := false;
     sessionParser := mockParser VNull;
     sessionStore := mockStore (Some VNull) (Some true) None (Some true) None |}.

(** A valid credential, automatic save, and a store whose [set] reports
    an internal error. *)
Definition set_errors_config : @SessionConfig symbolic unit :=
  {| autoCreateOnMissing := false; autoSave := true;
     sessionParser := mockParser (VStr "session-id");
     sessionStore := mockStore (Some user_123) None (Some user_123) (Some true) None |}.

(** The world a handler sees once [user_123] is loaded. *)
Definition loaded_world (modified : bool) : @World symbolic unit :=
  {| userData := Some user_123; modifiedState := modified;
     shared := {| sessionHeader := []; ext := tt |}; trace := [] |}.

(** The cookie store of the expiry scenario: secret [s], one second of
    [maxAge]. *)
Definition one_second_options : @CookieSessionStoreOptions symbolic :=
  {| secret := "s"; sessionStoreKey := None; dataCreator := None;
     rolling := None; renew := None; renewBefore := None;
     cookieOptions :=
       Some {| maxAge := Some 1000%Z; expires := None; httpOnly := None;
               overwrite := None; path := None; domain := None;
               sameSite := None |} |}.

(** The same store with the renew policy, and with the rolling policy. *)
Definition renew_options : @CookieSessionStoreOptions symbolic :=
  {| secret := "s"; sessionStoreKey := None; dataCreator := None;
     rolling := None; renew := Some true; renewBefore := Some 400%Z;
     cookieOptions := cookieOptions one_second_options |}.

(** A store whose [dataCreator] stamps every new session. *)
Definition stamping_options : @CookieSessionStoreOptions symbolic :=
  {| secret := "s"; sessionStoreKey := None;
     dataCreator := Some (fun _ _ => VObj [("id", VStr "generated-id")]);
     rolling := None; renew := None; renewBefore := None;
     cookieOptions := None |}.

Definition user_1 : JsVal := VObj [("id", VStr "1")].

Definition session_ulid : string := "01ARZ3NDEKTSV4RRFFQ69G5FAV".

(** A request with no cookie, the contexts at their defaults. *)
Definition fresh_ambient : @Ambient symbolic :=
  {| requestInfo := {| pathname := "/"; cookies := None |};
     sessionMetaData := None; authHeader := [] |}.

(** The session-data cookie [create] emits in the expiry scenario. *)
Definition scenario_cookie : SymText :=
  encrypt_envelope one_second_options session_ulid
    {| _data := user_1; _expires := 1000 |}.

(** A session-data cookie that is not a cipher text at all. *)
Definition corrupted_cookie : SymText := Lit "garbage".

(** The runs of the worked examples. *)
Definition create_fails_run : @Response symbolic * @World symbolic unit :=
  middleware create_fails_config mock_request answer (initial_world None tt).

Definition valid_credential_run : @Response symbolic * @World symbolic unit :=
  middleware valid_credential_config mock_request answer (initial_world None tt).

(** ** Predicates of the specification *)

(** The expiry [new] a call at time [now] leaves for a session whose
    expiry was [old], policy by policy. *)
Definition follows_policy {rt : Runtime} (o : CookieSessionStoreOptions)
    (now old new : Z) : Prop :=
  ((options_rolling o = true -> new = now + store_maxAge o)
   /\ (options_renew o = true -> old - now >= options_renewBefore o -> new = old)
   /\ (options_renew o = true -> old - now < options_renewBefore o ->
       new = now + store_maxAge o)
   /\ (options_rolling o = false -> options_renew o = false -> new = old))%Z.

Section Predicates.
Context {rt : Runtime} {X : Type}.

Definition not_lowering (e : Event) : Prop := e <> ModifiedWrite false.

(** From [w] to [w'] the trace grew by events none of which writes
    [false] to the flag, and a raised flag is still raised. *)
Definition steady (w w' : @World rt X) : Prop :=
  (exists evs, trace w' = trace w ++ evs /\ Forall not_lowering evs)
  /\ (modifiedState w = true -> modifiedState w' = true).

(** The flag as a monotonic one: no write of [false] after a write of
    [true]. *)
Definition never_lowered (t : list Event) : Prop :=
  forall pre post, t = pre ++ ModifiedWrite true :: post ->
                   ~ In (ModifiedWrite false) post.

(** Every mutation queued in [sessionHeaderCtx] is part of the response. *)
Definition queued_mutations_applied (out : Response * @World rt X) : Prop :=
  forall h m, In h (sessionHeader (shared (snd out))) -> In m h -> In m (fst out).

(** How the middleware maps the result of a write: [undefined] to a 500
    response, [false] to a 401 response, [true] to no error. *)
Definition error_mapping (r : option bool) (out : option Response) : Prop :=
  match r with
  | None => exists e, out = Some e /\ status_of e = 500%Z
  | Some false => exists e, out = Some e /\ status_of e = 401%Z
  | Some true => out = None
  end.

(** The world after one call [e] that left the shared part as [s]. *)
Definition after_call (e : Event) (s : @Shared rt X) (w : @World rt X)
  : @World rt X :=
  {| userData := userData w; modifiedState := modifiedState w;
     shared := s; trace := trace w ++ [e] |}.

End Predicates.

(** ** The cookie parser ([cookieSessionParser]) *)

(** What the parser needs of cookie text: node's [Buffer] conversions to
    and from base64, and the truthiness of a cookie value (a string is
    falsy exactly when it is empty). *)
Class Wire {rt : Runtime} : Type := {
  base64_encode : string -> Text;
  base64_decode : Text -> string;
  text_truthy : Text -> bool
}.

Section CookieParser.
Context {rt : Runtime} {wire : Wire}.

Local Open Scope Z_scope.

(** [customCodec] *)
Record Codec : Type := mkCodec {
  encode : string -> Text;
  decode : Text -> string
}.

(** [CookieSessionParserOptions]; an absent field is [None].  The field
    [cookieOptions] is named apart from the store's. *)
Record CookieSessionParserOptions : Type := mkCookieSessionParserOptions {
  sessionIdKey : option string;
  customCodec : option Codec;
  parserCookieOptions : option SetOption
}.

Definition options_sessionIdKey (p : CookieSessionParserOptions) : string :=
  default "sess:k" (sessionIdKey p).
Definition options_parserCookieOptions (p : CookieSessionParserOptions) : SetOption :=
  default defaultCookieOptions (parserCookieOptions p).

(** [options.customCodec ? options.customCodec.encode(id)
     : Buffer.from(id).toString('base64')] *)
Definition encode_sessionId (p : CookieSessionParserOptions) (id : string) : Text :=
  match customCodec p with
  | Some codec => encode codec id
  | None => base64_encode id
  end.

(** [options.customCodec ? options.customCodec.decode(encoded)
     : Buffer.from(encoded, 'base64').toString('utf8')] *)
Definition decode_sessionId (p : CookieSessionParserOptions) (encoded : Text) : string :=
  match customCodec p with
  | Some codec => decode codec encoded
  | None => base64_decode encoded
  end.

(** [get]; [None] is [null]. *)
Definition cookieSessionParser_get (p : CookieSessionParserOptions)
    (requestInfo : RequestInfo) : option string :=
  match cookies requestInfo with
  | None => None
  | Some jar =>
      match jar !! options_sessionIdKey p with
      | None => None
      | Some encodedSessionId =>
          if text_truthy encodedSessionId
          then Some (decode_sessionId p encodedSessionId)
          else None
      end
  end.

(** [set]: reads [sessionMetaDataCtx]; the bare [Response] when there is
    no metadata. *)
Definition cookieSessionParser_set (p : CookieSessionParserOptions)
    (a : Ambient) : Response :=
  match sessionMetaData a with
  | None => []
  | Some sessionMeta =>
      let c := options_parserCookieOptions p in
      [Cookie (options_sessionIdKey p)
         (encode_sessionId p (sessionId sessionMeta))
         {| maxAge := maxAge c; expires := Some (expiresTime sessionMeta);
            httpOnly := httpOnly c; overwrite := overwrite c;
            path := path c; domain := domain c; sameSite := sameSite c |}]
  end.

(** [remove] *)
Definition cookieSessionParser_remove (p : CookieSessionParserOptions) : Response :=
  let c := options_parserCookieOptions p in
  [Cookie (options_sessionIdKey p) (text_of_string "")
     {| maxAge := Some 0; expires := Some 0;
        httpOnly := httpOnly c; overwrite := overwrite c;
        path := path c; domain := domain c; sameSite := sameSite c |}].

(** The value of the only cookie of a response. *)
Definition cookie_value (r : Response) : option Text :=
  match r with
  | [Cookie _ value _] => Some value
  | _ => None
  end.



(** The next request of a client that kept both cookies: the credential
    cookie holds [credential] and the session-data cookie holds [data];
    the contexts are fresh. *)
Definition echo_both (o : CookieSessionStoreOptions) (p : CookieSessionParserOptions)
    (credential data : Text) : Ambient :=
  {| requestInfo :=
       {| pathname := "/";
          cookies := Some (<[ options_sessionIdKey p := credential ]>
                             {[ options_sessionStoreKey o := data ]}) |};
     sessionMetaData := None; authHeader := [] |}.

(** One request creates a session and answers with both cookies; the
    next request carries them back, the parser reads the credential and
    the store resolves it. *)
Definition create_then_resolve (o : CookieSessionStoreOptions)
    (p : CookieSessionParserOptions) (ulid : string) (t0 t1 : Z)
    (userData : option JsVal) (a : Ambient) : option JsVal :=
  let a1 := snd (cookieSessionStore_create o ulid t0 userData a) in
  match cookie_value (cookieSessionParser_set p a1), emitted_value a1 with
  | Some credential, Some data =>
      let a2 := echo_both o p credential data in
      match cookieSessionParser_get p (requestInfo a2) with
      | Some sessionId => fst (cookieSessionStore_get o t1 sessionId a2)
      | None => None
      end
  | _, _ => None
  end.

(** A session is created at [t0], written at [t1] in a request that
    resolved it, and read at [t2] from the cookie the write emitted. *)
Definition create_set_get (o : CookieSessionStoreOptions) (ulid : string)
    (t0 t1 t2 : Z) (created written : JsVal) (a : Ambient) : option JsVal :=
  let a1 := snd (cookieSessionStore_create o ulid t0 (Some created) a) in
  let a2 := snd (cookieSessionStore_set o t1 written a1) in
  match emitted_value a2 with
  | Some value => fst (cookieSessionStore_get o t2 ulid (echo_request o value))
  | None => None
  end.

End CookieParser.

(** From [a] to [a'] the request is the same and [authHeaderCtx] got at
    most one more response, behind those it held. *)
Definition appends_at_most_one {rt : Runtime} (a a' : Ambient) : Prop :=
  requestInfo a' = requestInfo a
  /\ exists more, authHeader a' = authHeader a ++ more /\ (length more <= 1)%nat.

(** The symbolic wire: base64 text is the literal behind a tag. *)
Definition sym_base64_encode (s : string) : SymText := Lit (String.append "b64:" s).

Definition sym_base64_decode (t : SymText) : string :=
  match t with
  | Lit s => String.substring 4 (String.length s - 4) s
  | _ => ""
  end.

Definition sym_text_truthy (t : SymText) : bool :=
  match t with
  | Lit s => negb (String.eqb s "")
  | _ => true
  end.

#[export] Instance symbolic_wire : @Wire symbolic := {|
  base64_encode := sym_base64_encode;
  base64_decode := sym_base64_decode;
  text_truthy := sym_text_truthy
|}.

Definition default_parser_options : @CookieSessionParserOptions symbolic :=
  {| sessionIdKey := None; customCodec := None; parserCookieOptions := None |}.

(** The rolling store of the examples. *)
Definition rolling_options : @CookieSessionStoreOptions symbolic :=
  {| secret := "s"; sessionStoreKey := None; dataCreator := None;
     rolling := Some true; renew := None; renewBefore := None;
     cookieOptions := cookieOptions one_second_options |}.

(** ** What the requests of the middleware consist of *)

Section Requests.
Context {rt : Runtime} {X : Type}.

(** The events a handler and the automatic save can cause: calls of
    [Parser.set], [Parser.remove], [Store.set], [Store.create],
    [Store.destroy] and [Store.touch], and raising the flag. *)
Definition handler_event (e : Event) : bool :=
  match e with
  | ParserSet | ParserRemove | StoreSet _ | StoreCreate _
  | StoreDestroy | StoreTouch | ModifiedWrite true => true
  | _ => false
  end.

Definition is_next (e : Event) : bool :=
  match e with Next => true | _ => false end.
Definition is_parser_get (e : Event) : bool :=
  match e with ParserGet => true | _ => false end.
Definition is_store_get (e : Event) : bool :=
  match e with StoreGet _ => true | _ => false end.
Definition is_store_write (e : Event) : bool :=
  match e with StoreSet _ | StoreTouch => true | _ => false end.

Definition count_events (f : Event -> bool) (t : list Event) : nat :=
  length (List.filter f t).

(** An operation that leaves the queued mutations in place: it may
    queue more, behind them. *)
Definition appends_headers {A : Type} (op : @Op rt X A) : Prop :=
  forall s, exists more, sessionHeader (snd (op s)) = sessionHeader s ++ more.

(** A store and a parser all of whose operations do. *)
Definition keeps_headers (config : @SessionConfig rt X) : Prop :=
  (forall request, appends_headers (parser_get (sessionParser config) request))
  /\ appends_headers (parser_set (sessionParser config))
  /\ appends_headers (parser_remove (sessionParser config))
  /\ (forall c, appends_headers (store_get (sessionStore config) c))
  /\ (forall d, appends_headers (store_set (sessionStore config) d))
  /\ (forall d, appends_headers (store_create (sessionStore config) d))
  /\ appends_headers (store_destroy (sessionStore config))
  /\ (forall touch, store_touch (sessionStore config) = Some touch ->
                    appends_headers touch).

(** From [w] to [w'] the trace grew by events that all satisfy [f]. *)
Definition emits (f : Event -> bool) (w w' : @World rt X) : Prop :=
  exists evs, trace w' = trace w ++ evs /\ forallb f evs = true.

(** From [w] to [w'] the queue of mutations only grew at its end. *)
Definition queue_grows (w w' : @World rt X) : Prop :=
  exists more,
    sessionHeader (shared w') = sessionHeader (shared w) ++ more.

End Requests.

(** More configurations for the examples. *)

(** No credential and no automatic creation. *)
Definition anonymous_config : @SessionConfig symbolic unit :=
  {| autoCreateOnMissing := false; autoSave := true;
     sessionParser := mockParser VNull;
     sessionStore := mockStore (Some VNull) (Some true) (Some user_123) (Some true) None |}.

(** A credential the store does not know; the store creates [user_123]. *)
Definition unknown_credential_config : @SessionConfig symbolic unit :=
  {| autoCreateOnMissing := false; autoSave := true;
     sessionParser := mockParser (VStr "stale-id");
     sessionStore := mockStore (Some VNull) (Some true) (Some user_123) (Some true) None |}.

(** A credential on which the store reports an internal error. *)
Definition get_errors_config : @SessionConfig symbolic unit :=
  {| autoCreateOnMissing := false; autoSave := true;
     sessionParser := mockParser (VStr "session-id");
     sessionStore := mockStore None (Some true) (Some user_123) (Some true) None |}.

(** A valid credential, automatic save, and a store whose [create] and
    [destroy] fail. *)
Definition failing_store_config : @SessionConfig symbolic unit :=
  {| autoCreateOnMissing := false; autoSave := true;
     sessionParser := mockParser (VStr "session-id");
     sessionStore := mockStore (Some user_123) (Some true) None (Some false) None |}.

(** A valid credential and automatic save, all store calls succeeding. *)
Definition autosave_config : @SessionConfig symbolic unit :=
  {| autoCreateOnMissing := false; autoSave := true;
     sessionParser := mockParser (VStr "session-id");
     sessionStore := mockStore (Some user_123) (Some true) (Some user_123) (Some true) None |}.

(** No credential, automatic creation, and a store whose [create]
    returns the empty string. *)
Definition empty_create_config : @SessionConfig symbolic unit :=
  {| autoCreateOnMissing := true; autoSave := false;
     sessionParser := mockParser VNull;
     sessionStore := mockStore (Some VNull) (Some true) (Some (VStr "")) (Some true) None |}.

(** The contexts of a request in which the scenario's session has been
    resolved: its metadata is published. *)
Definition published_ambient : @Ambient symbolic :=
  {| requestInfo := {| pathname := "/"; cookies := None |};
     sessionMetaData := Some {| sessionId := session_ulid; expiresTime := 1000 |};
     authHeader := [] |}.

(** * Properties of the session context and the middleware *)

Section SessionProperties.
Context {rt : Runtime} {X : Type} (config : @SessionConfig rt X).

Lemma call_eq {A : Type} (e : Event) (op : @Op rt X A) (w : @World rt X) :
  call e op w = (fst (op (shared w)), after_call e (snd (op (shared w))) w).
Proof. unfold call, after_call. destruct (op (shared w)); reflexivity. Qed.

Lemma steady_refl (w : @World rt X) : steady w w.
Proof.
  split; [|auto]. exists []. split; [symmetry; apply app_nil_r | constructor].
Qed.

Lemma steady_trans (w1 w2 w3 : @World rt X) :
  steady w1 w2 -> steady w2 w3 -> steady w1 w3.
Proof.
  intros [(e1 & T1 & F1) M1] [(e2 & T2 & F2) M2]. split; [|auto].
  exists (e1 ++ e2). split.
  - rewrite T2, T1. symmetry. apply app_assoc.
  - apply Forall_app; auto.
Qed.

Lemma steady_after_call (e : Event) (s : Shared) (w : @World rt X) :
  not_lowering e -> steady w (after_call e s w).
Proof.
  intros He. split; [|auto]. exists [e]. split; [reflexivity|].
  constructor; [exact He | constructor].
Qed.

Lemma steady_push_header (h : Response) (w : @World rt X) :
  steady w (push_header h w).
Proof.
  split; [|auto]. exists []. split; [symmetry; apply app_nil_r | constructor].
Qed.

Lemma steady_ctx_set (v : option JsVal) (w : @World rt X) :
  steady w (ctx_set v w).
Proof.
  split; [|auto]. exists [ModifiedWrite true]. split; [reflexivity|].
  constructor; [discriminate | constructor].
Qed.

(** Peel the last step off a chain of [steady] worlds, until none is left. *)
Ltac steady_chain :=
  repeat first
    [ apply steady_refl
    | eapply steady_trans;
      [ | first [ apply steady_push_header
                | apply steady_ctx_set
                | apply steady_after_call; unfold not_lowering; discriminate ] ] ].

Lemma steady_saveToStore (w : World) : steady w (snd (saveToStore config w)).
Proof.
  unfold saveToStore.
  destruct (userData w); [|apply steady_refl].
  destruct (modifiedState w); [rewrite call_eq; simpl; steady_chain|].
  destruct (store_touch (sessionStore config));
    rewrite call_eq; simpl; steady_chain.
Qed.

Lemma steady_regenerate (w : World) : steady w (snd (regenerate config w)).
Proof.
  unfold regenerate.
  destruct (userData w); [|apply steady_refl].
  rewrite call_eq.
  destruct (fst _); [rewrite call_eq|]; simpl; steady_chain.
Qed.

Lemma steady_destroy (w : World) : steady w (snd (destroy config w)).
Proof.
  unfold destroy.
  destruct (userData w); [|apply steady_refl].
  rewrite call_eq.
  destruct (falsy_result _); [|rewrite call_eq]; simpl; steady_chain.
Qed.

Lemma steady_run_handler (h : Handler) :
  forall w : World, steady w (snd (run_handler config h w)).
Proof.
  induction h as [r|k IH|v k IH|k IH|k IH|k IH|k IH]; intros w; simpl.
  - apply steady_refl.
  - apply IH.
  - eapply steady_trans; [apply steady_ctx_set | apply IH].
  - apply IH.
  - pose proof (steady_saveToStore w) as S.
    destruct (saveToStore config w) as [r w1].
    eapply steady_trans; [exact S | apply IH].
  - pose proof (steady_regenerate w) as S.
    destruct (regenerate config w) as [r w1].
    eapply steady_trans; [exact S | apply IH].
  - pose proof (steady_destroy w) as S.
    destruct (destroy config w) as [r w1].
    eapply steady_trans; [exact S | apply IH].
Qed.

Lemma steady_autosave (w : World) : steady w (snd (autosave config w)).
Proof.
  unfold autosave.
  destruct (autoSave config); [|apply steady_refl].
  destruct (userData w); [|apply steady_refl].
  destruct (modifiedState w); [rewrite call_eq; simpl; steady_chain|].
  destruct (store_touch (sessionStore config));
    rewrite call_eq; simpl; steady_chain.
Qed.

Lemma steady_createNewAuth (w : World) : steady w (snd (createNewAuth config w)).
Proof.
  unfold createNewAuth. rewrite call_eq.
  destruct (falsy _); [|rewrite call_eq]; simpl; steady_chain.
Qed.

Lemma steady_resolve (request : RequestInfo) (w : World) :
  steady w (snd (resolve config request w)).
Proof.
  unfold resolve. rewrite call_eq.
  destruct (negb _).
  - rewrite call_eq.
    destruct (autoCreateOnMissing config); simpl.
    + eapply steady_trans; [|apply steady_createNewAuth]. steady_chain.
    + steady_chain.
  - rewrite call_eq.
    destruct (fst (store_get _ _ _)) as [[| | | | |]|]; simpl;
      try steady_chain.
    eapply steady_trans; [|apply steady_createNewAuth]. steady_chain.
Qed.

Lemma status_of_error_response (msg : string) (code : Z) :
  status_of (@error_response rt msg code) = code.
Proof. reflexivity. Qed.

Lemma error_mapping_map_write_result (r : option bool) (msg : string) :
  error_mapping r (map_write_result r (@error_response rt msg 401)).
Proof.
  destruct r as [[|]|]; simpl; [reflexivity | |];
    eexists; (split; [reflexivity|]); reflexivity.
Qed.

(** C1. With [autoSave] on, after the handler: data present and modified,
    the middleware makes one call, [Store.set] with that data; data
    present and not modified, one call, [Store.touch] when the store has
    it and [Store.set] with the data otherwise; in each case [undefined]
    becomes a 500 response and [false] a 401 response.  With no data no
    call is made. *)
Theorem autosave_persists_by_modification (w : World) :
  autoSave config = true ->
  let store := sessionStore config in
  (forall d, userData w = Some d -> modifiedState w = true ->
     trace (snd (autosave config w)) = trace w ++ [StoreSet d]
     /\ error_mapping (fst (store_set store d (shared w)))
                       (fst (autosave config w)))
  /\ (forall d, userData w = Some d -> modifiedState w = false ->
       match store_touch store with
       | Some touch =>
           trace (snd (autosave config w)) = trace w ++ [StoreTouch]
           /\ error_mapping (fst (touch (shared w))) (fst (autosave config w))
       | None =>
           trace (snd (autosave config w)) = trace w ++ [StoreSet d]
           /\ error_mapping (fst (store_set store d (shared w)))
                             (fst (autosave config w))
       end)
  /\ (userData w = None -> autosave config w = (None, w)).
Proof.
  intros Hauto store. unfold autosave. rewrite Hauto.
  split; [|split].
  - intros d Hd Hm. rewrite Hd, Hm, call_eq. simpl.
    split; [reflexivity | apply error_mapping_map_write_result].
  - intros d Hd Hm. rewrite Hd, Hm. subst store.
    destruct (store_touch (sessionStore config)) as [touch|];
      rewrite call_eq; simpl;
      (split; [reflexivity | apply error_mapping_map_write_result]).
  - intros Hd. rewrite Hd. reflexivity.
Qed.

(** C3, as amended.  Where the middleware stops early it returns the bare
    error response (a JSON body and a 500 or 401 status, no cookie), the
    mutations queued so far staying behind in [sessionHeaderCtx]; only on
    the path to the end are the queued mutations merged, in the order
    they were queued, ahead of the handler's response. *)
Theorem short_circuit_returns_bare_error
    (request : RequestInfo) (next : Handler) (w : World) :
  match resolve config request w with
  | (Some e, w1) =>
      middleware config request next w = (e, w1)
      /\ e = internal_error
      /\ forallb (fun m => negb (is_cookie m)) e = true
  | (None, w1) =>
      let ran := call_next config next (write_modified false w1) in
      match autosave config (snd ran) with
      | (Some e, w3) =>
          middleware config request next w = (e, w3)
          /\ (e = internal_error \/ e = set_failed \/ e = touch_failed)
          /\ forallb (fun m => negb (is_cookie m)) e = true
      | (None, w3) =>
          middleware config request next w
          = (merge (sessionHeader (shared w3)) ++ fst ran, w3)
          /\ queued_mutations_applied (middleware config request next w)
      end
  end.
Proof.
  unfold middleware.
  destruct (resolve config request w) as [[e|] w1] eqn:R.
  - split; [reflexivity|].
    assert (E : e = internal_error); [|split; [exact E | rewrite E; reflexivity]].
    revert R. unfold resolve, createNewAuth. rewrite call_eq.
    destruct (negb _).
    + rewrite call_eq. destruct (autoCreateOnMissing config); simpl.
      * rewrite call_eq. destruct (falsy _); [|rewrite call_eq]; simpl; congruence.
      * congruence.
    + rewrite call_eq.
      destruct (fst (store_get _ _ _)) as [[| | | | |]|]; simpl; try congruence.
      rewrite call_eq. destruct (falsy _); [|rewrite call_eq]; simpl; congruence.
  - unfold after_resolve. simpl.
    destruct (call_next config next (write_modified false w1)) as [r w2]. simpl.
    destruct (autosave config w2) as [[e|] w3] eqn:A.
    + split; [reflexivity|].
      assert (E : e = internal_error \/ e = set_failed \/ e = touch_failed);
        [|split; [exact E | destruct E as [E|[E|E]]; rewrite E; reflexivity]].
      revert A. unfold autosave.
      destruct (autoSave config); [|congruence].
      destruct (userData w2); [|congruence].
      assert (M : forall (x : option bool) (f : Response),
                 map_write_result x f = Some e -> e = internal_error \/ e = f).
      { intros [[|]|] f; simpl; intros E; inversion E; auto. }
      destruct (modifiedState w2).
      * rewrite call_eq. intros E. inversion E as [[E1 E2]].
        apply M in E1. tauto.
      * destruct (store_touch (sessionStore config));
          rewrite call_eq; intros E; inversion E as [[E1 E2]];
          apply M in E1; tauto.
    + split; [reflexivity|].
      intros h m Hh Hm. simpl in *. apply in_or_app. left.
      unfold merge. apply in_concat. exists h. split; assumption.
Qed.

(** [saveToStore] never answers [undefined], whatever the store does. *)
Lemma saveToStore_never_undefined (w : World) :
  fst (saveToStore config w) <> None.
Proof.
  unfold saveToStore.
  destruct (userData w); [|discriminate].
  destruct (modifiedState w);
    [|destruct (store_touch (sessionStore config))];
    rewrite call_eq; simpl;
    match goal with |- or_false ?r <> None => destruct r as [[|]|] end;
    discriminate.
Qed.

(** C6. Where the parsed credential is resolved to data by [Store.get],
    the handler's first [get] reads exactly that data and its first
    [isModified] reads [false]. *)
Theorem resolved_data_reaches_handler
    (request : RequestInfo) (w : World) (d : JsVal) :
  let parsed := parser_get (sessionParser config) request (shared w) in
  truthy (fst parsed) = true ->
  fst (store_get (sessionStore config) (fst parsed) (snd parsed)) = Some d ->
  d <> VNull ->
  (exists w1, resolve config request w = (None, w1)
              /\ userData w1 = Some d
              /\ modifiedState (write_modified false w1) = false)
  /\ forall k : option JsVal -> bool -> Handler,
       middleware config request
         (CtxGet (fun v => CtxIsModified (fun m => k v m))) w
       = middleware config request (k (Some d) false) w.
Proof.
  intros parsed Ht Hg Hd.
  assert (R : exists w1, resolve config request w = (None, w1)
                         /\ userData w1 = Some d).
  { unfold resolve. rewrite call_eq. fold parsed. rewrite Ht. simpl.
    rewrite call_eq. simpl. fold parsed. rewrite Hg.
    destruct d; try congruence; eexists; split; reflexivity. }
  destruct R as (w1 & R & U). split.
  - exists w1. auto.
  - intros k. unfold middleware. rewrite R.
    unfold after_resolve, call_next. simpl. rewrite U. reflexivity.
Qed.

(** C8, as amended.  In a request the flag is written [false] at most
    once, by the middleware's reset right before it calls the handler;
    no step before or after it lowers the flag, so from the handler's
    entry to the end of the request a raised flag stays raised. *)
Theorem flag_lowered_only_by_reset
    (request : RequestInfo) (next : Handler) (w : World) :
  (exists pre post,
      trace (snd (middleware config request next w)) = trace w ++ pre ++ post
      /\ Forall not_lowering pre
      /\ (post = []
          \/ exists rest, post = ModifiedWrite false :: Next :: rest
                          /\ Forall not_lowering rest))
  /\ (forall (h : Handler) (w0 : World), steady w0 (snd (run_handler config h w0)))
  /\ (forall w0 : World, steady w0 (snd (autosave config w0))).
Proof.
  split; [|split; [intros; apply steady_run_handler | apply steady_autosave]].
  unfold middleware.
  pose proof (steady_resolve request w) as [(pre & Tpre & Fpre) _].
  destruct (resolve config request w) as [[e|] w1]; simpl in Tpre.
  - exists pre, []. simpl. rewrite app_nil_r. auto.
  - unfold after_resolve, call_next.
    set (w2 := {| userData := userData (write_modified false w1);
                  modifiedState := modifiedState (write_modified false w1);
                  shared := shared (write_modified false w1);
                  trace := trace (write_modified false w1) ++ [Next] |}).
    pose proof (steady_run_handler next w2) as [(e1 & T1 & F1) _].
    destruct (run_handler config next w2) as [r w3]. simpl in T1.
    pose proof (steady_autosave w3) as [(e2 & T2 & F2) _].
    assert (T : trace (snd (autosave config w3))
                = trace w ++ pre ++ ModifiedWrite false :: Next :: e1 ++ e2).
    { rewrite T2, T1. unfold w2. simpl. rewrite Tpre.
      rewrite <- !app_assoc. reflexivity. }
    exists pre, (ModifiedWrite false :: Next :: e1 ++ e2).
    destruct (autosave config w3) as [[e|] w4]; simpl in T |- *;
      (split; [exact T | split; [exact Fpre | right; eexists; split;
         [reflexivity | apply Forall_app; auto]]]).
Qed.

(** C9. [destroy] on present data, where [Store.destroy] succeeds, answers
    [true], leaves [get] reading [undefined] and [isModified] reading
    [true]; whatever the handler does next and through the automatic
    save, [isModified] still reads [true]. *)
Theorem destroy_clears_data_and_marks_modified (w : World) (d : JsVal) :
  userData w = Some d ->
  fst (store_destroy (sessionStore config) (shared w)) = Some true ->
  let w1 := snd (destroy config w) in
  fst (destroy config w) = Some true
  /\ userData w1 = None
  /\ modifiedState w1 = true
  /\ (forall k : option bool -> option JsVal -> bool -> Handler,
        run_handler config
          (CtxDestroy (fun r => CtxGet (fun v => CtxIsModified (fun m => k r v m)))) w
        = run_handler config (k (Some true) None true) w1)
  /\ (forall k : Handler,
        modifiedState (snd (run_handler config k w1)) = true
        /\ modifiedState (snd (autosave config (snd (run_handler config k w1)))) = true).
Proof.
  intros Hd Hs w1.
  assert (D : destroy config w = (Some true, w1)
              /\ userData w1 = None /\ modifiedState w1 = true).
  { subst w1. unfold destroy. rewrite Hd, call_eq, Hs. simpl.
    rewrite call_eq. simpl. auto. }
  destruct D as (D & U & M).
  split; [rewrite D; reflexivity|].
  split; [exact U|]. split; [exact M|]. split.
  - intros k. simpl. rewrite D. rewrite U, M. reflexivity.
  - intros k.
    pose proof (steady_run_handler k w1) as [_ S1].
    pose proof (steady_autosave (snd (run_handler config k w1))) as [_ S2].
    auto.
Qed.

End SessionProperties.

(** * Properties of the cookie-backed store *)

Section CookieProperties.
Context {rt : Runtime} (o : CookieSessionStoreOptions).

Local Open Scope Z_scope.

Lemma read_cookie_echo_request (value : Text) :
  read_cookie o (requestInfo (echo_request o value)) = Some value.
Proof. unfold read_cookie, echo_request. simpl. apply lookup_singleton_eq. Qed.

Lemma decrypt_encrypt_envelope {laws : RuntimeLaws rt}
    (sid : string) (e : Envelope) :
  decrypt_envelope o sid (encrypt_envelope o sid e) = Some e.
Proof.
  unfold decrypt_envelope, encrypt_envelope.
  rewrite decrypt_encrypt. apply parse_stringify.
Qed.

(** A payload that does not decipher, or does not parse: [get] answers
    [null] and queues the mutation that clears the session-data cookie. *)
Lemma get_undecryptable (now : Z) (sid : string) (a : Ambient) (payload : Text) :
  read_cookie o (requestInfo a) = Some payload ->
  decrypt_envelope o sid payload = None ->
  cookieSessionStore_get o now sid a
  = (Some VNull, push_authHeader (clear_cookie o) a).
Proof.
  intros Hc Hd. unfold cookieSessionStore_get. rewrite Hc, Hd. reflexivity.
Qed.

(** A payload whose expiry is in the past: [get] answers [null] and
    leaves the contexts as they were; nothing is queued. *)
Lemma get_expired (now : Z) (sid : string) (a : Ambient)
    (payload : Text) (env : Envelope) :
  read_cookie o (requestInfo a) = Some payload ->
  decrypt_envelope o sid payload = Some env ->
  _expires env <> 0 -> _expires env < now ->
  cookieSessionStore_get o now sid a = (Some VNull, a).
Proof.
  intros Hc Hd H0 Hlt. unfold cookieSessionStore_get. rewrite Hc, Hd.
  unfold expired.
  destruct (Z.eqb_spec (_expires env) 0); [contradiction|].
  destruct (Z.ltb_spec (_expires env) now); [reflexivity | lia].
Qed.

Lemma policy_cases (now old : Z) :
  cookieSessionStore_throws o = None ->
  follows_policy o now old
    (if options_rolling o then now + store_maxAge o
     else if options_renew o then
       if old - now <? options_renewBefore o then now + store_maxAge o else old
     else old).
Proof.
  unfold cookieSessionStore_throws, follows_policy. intros Hok.
  destruct (String.eqb (secret o) ""); [discriminate|].
  destruct (options_rolling o), (options_renew o); simpl in Hok;
    try discriminate;
    try destruct (Z.ltb_spec (old - now) (options_renewBefore o));
    repeat split; intros; first [reflexivity | discriminate | lia].
Qed.

(** C5, as amended.  A [get] that finds a live session, and a [set] on a
    published session, compute the expiry the policy asks for: under
    rolling, [now + maxAge]; under renew, the old expiry while
    [expiresAt - now >= renewBefore] and [now + maxAge] below that; with
    neither flag, the old expiry.  [get] only publishes it in the
    metadata of the request: it queues no cookie, so the stored payload
    keeps the expiry it had.  [set] publishes it and stores it, in the
    payload of the cookie it emits. *)
Theorem expiry_follows_policy (now : Z) :
  cookieSessionStore_throws o = None ->
  (forall sid a payload env,
      read_cookie o (requestInfo a) = Some payload ->
      decrypt_envelope o sid payload = Some env ->
      expired env now = false ->
      exists new,
        cookieSessionStore_get o now sid a
        = (Some (_data env),
           set_sessionMetaData
             (Some {| sessionId := sid; expiresTime := new |}) a)
        /\ follows_policy o now (_expires env) new
        /\ authHeader (snd (cookieSessionStore_get o now sid a)) = authHeader a)
  /\ (forall data a m,
      sessionMetaData a = Some m ->
      exists new,
        cookieSessionStore_set o now data a
        = (Some true,
           push_authHeader
             [Cookie (options_sessionStoreKey o)
                (encrypt_envelope o (sessionId m)
                   {| _data := data; _expires := new |})
                (write_cookieOptions o)]
             (set_sessionMetaData
                (Some {| sessionId := sessionId m; expiresTime := new |}) a))
        /\ follows_policy o now (expiresTime m) new).
Proof.
  intros Hok. split.
  - intros sid a payload env Hc Hd He.
    eexists. split; [|split; [apply (policy_cases now (_expires env) Hok)|]];
      unfold cookieSessionStore_get; rewrite Hc, Hd, He; reflexivity.
  - intros data a m Hm.
    eexists. split; [|apply (policy_cases now (expiresTime m) Hok)].
    unfold cookieSessionStore_set. rewrite Hm. reflexivity.
Qed.

(** C7, as amended.  [create] and then [get], with the emitted cookie
    sent back and no more than [maxAge] elapsed, yields the data [create]
    returned.  That is the data passed in where no [dataCreator] is
    configured and the data is truthy, and the [dataCreator]'s result
    where one is configured. *)
Theorem create_then_get_yields_created_data {laws : RuntimeLaws rt}
    (ulid : string) (t0 t1 : Z) (userData : option JsVal) (a : Ambient) :
  t1 <= t0 + store_maxAge o ->
  create_then_get o ulid t0 t1 userData a
  = fst (cookieSessionStore_create o ulid t0 userData a)
  /\ (dataCreator o = None -> forall v, userData = Some v -> truthy v = true ->
      create_then_get o ulid t0 t1 userData a = Some v)
  /\ (forall creator, dataCreator o = Some creator ->
      create_then_get o ulid t0 t1 userData a
      = Some (creator (requestInfo a) userData)).
Proof.
  intros Ht.
  assert (E : create_then_get o ulid t0 t1 userData a
              = fst (cookieSessionStore_create o ulid t0 userData a)).
  { unfold create_then_get, cookieSessionStore_create, emitted_value. simpl.
    rewrite last_snoc.
    unfold cookieSessionStore_get.
    rewrite read_cookie_echo_request, decrypt_encrypt_envelope.
    unfold expired. simpl.
    destruct (Z.ltb_spec (t0 + store_maxAge o) t1); [lia|].
    rewrite andb_false_r. reflexivity. }
  split; [exact E|]. rewrite E. unfold cookieSessionStore_create. simpl.
  split.
  - intros Hn v Hv Htr. rewrite Hn, Hv, Htr. reflexivity.
  - intros creator Hc. rewrite Hc. reflexivity.
Qed.

(** C10. With no [dataCreator], [create] on falsy user data (absent, or
    present and falsy as the empty string and 0 are) returns [{}] and
    stores [{}] in the payload of the cookie it emits. *)
Theorem create_replaces_falsy_data
    (ulid : string) (now : Z) (userData : option JsVal) (a : Ambient) :
  dataCreator o = None ->
  falsy userData = true ->
  fst (cookieSessionStore_create o ulid now userData a) = Some emptyObject
  /\ emitted_value (snd (cookieSessionStore_create o ulid now userData a))
     = Some (encrypt_envelope o ulid
               {| _data := emptyObject; _expires := now + store_maxAge o |})
  /\ falsy (Some (VStr "")) = true
  /\ falsy (Some (VNum 0)) = true.
Proof.
  intros Hn Hf.
  assert (I : match userData with
              | Some v => if truthy v then v else emptyObject
              | None => emptyObject
              end = emptyObject).
  { destruct userData as [v|]; [|reflexivity].
    simpl in Hf. destruct (truthy v); [discriminate | reflexivity]. }
  unfold cookieSessionStore_create, emitted_value. simpl.
  rewrite last_snoc, Hn, I. auto.
Qed.

End CookieProperties.

(** * The properties on the worked examples *)

Lemma bytes_eqb_refl (a : list byte) : bytes_eqb a a = true.
Proof.
  induction a as [|x a IH]; simpl; [reflexivity|].
  rewrite (byte_dec_lb (eq_refl x)). exact IH.
Qed.

(** The symbolic runtime satisfies the laws asked of the black boxes. *)
Lemma symbolic_laws : RuntimeLaws symbolic.
Proof.
  split.
  - intros k iv p. simpl. unfold sym_decrypt.
    rewrite !bytes_eqb_refl. reflexivity.
  - intros e. reflexivity.
Qed.

(** The automatic save on modified data, with a store whose [set] reports
    an internal error: one [Store.set], and a 500 response. *)
Lemma autosave_persists_by_modification_witness :
  autoSave set_errors_config = true
  /\ trace (snd (autosave set_errors_config (loaded_world true)))
     = trace (loaded_world true) ++ [StoreSet user_123]
  /\ error_mapping None (fst (autosave set_errors_config (loaded_world true))).
Proof.
  split; [reflexivity|].
  exact (proj1 (autosave_persists_by_modification set_errors_config
                  (loaded_world true) eq_refl)
               user_123 eq_refl eq_refl).
Defined.

(** C2, the code at the failing input: the session of the expiry scenario
    is created at time 0 with one second to live and read back at time
    1500.  [get] answers [null] and queues nothing, where a corrupted
    cookie makes it queue the clearing mutation. *)
Theorem expired_get_emits_no_clearing_cookie :
  emitted_value
    (snd (cookieSessionStore_create one_second_options session_ulid 0
            (Some user_1) fresh_ambient)) = Some scenario_cookie
  /\ cookieSessionStore_get one_second_options 1500 session_ulid
       (echo_request one_second_options scenario_cookie)
     = (Some VNull, echo_request one_second_options scenario_cookie)
  /\ authHeader (echo_request one_second_options scenario_cookie) = []
  /\ authHeader
       (snd (cookieSessionStore_get one_second_options 1500 session_ulid
               (echo_request one_second_options corrupted_cookie)))
     = [clear_cookie one_second_options].
Proof. repeat split; vm_compute; reflexivity. Qed.

(** C3 as stated fails: no credential, automatic creation, [create]
    fails.  The middleware answers the 500 response; the clearing
    mutation of [Parser.remove], queued before, is not in it. *)
Lemma queued_mutations_dropped_on_short_circuit :
  fst create_fails_run = internal_error
  /\ sessionHeader (shared (snd create_fails_run)) = [mock_remove_cookie]
  /\ ~ queued_mutations_applied create_fails_run.
Proof.
  split; [reflexivity|]. split; [reflexivity|].
  intros H.
  assert (I : In (Cookie "sessionId" (Lit "")
                    {| maxAge := Some (-1)%Z; expires := None; httpOnly := None;
                       overwrite := None; path := None; domain := None;
                       sameSite := None |})
                 (fst create_fails_run)).
  { apply (H mock_remove_cookie); left; reflexivity. }
  simpl in I. destruct I as [I|[I|[]]]; discriminate I.
Qed.

(** C4, the code at the failing input: the store's [set] answers
    [undefined], and [saveToStore] answers [false]. *)
Theorem saveToStore_reports_internal_error_as_false :
  fst (store_set (sessionStore set_errors_config) user_123
         (shared (loaded_world true))) = None
  /\ fst (saveToStore set_errors_config (loaded_world true)) = Some false.
Proof. split; reflexivity. Qed.


(** C5 as stated fails: under the rolling policy a successful [get] at
    time 700 on the session stored with expiry 1000 publishes 1700 but
    queues no cookie; the stored payload still holds 1000, and a [get] at
    1200 on it, before 700 + [maxAge], answers [null]. *)
Lemma rolling_get_leaves_the_stored_expiry :
  options_rolling rolling_options = true
  /\ fst (cookieSessionStore_get rolling_options 700 session_ulid
            (echo_request rolling_options scenario_cookie)) = Some user_1
  /\ sessionMetaData
       (snd (cookieSessionStore_get rolling_options 700 session_ulid
               (echo_request rolling_options scenario_cookie)))
     = Some {| sessionId := session_ulid; expiresTime := 1700 |}
  /\ authHeader
       (snd (cookieSessionStore_get rolling_options 700 session_ulid
               (echo_request rolling_options scenario_cookie))) = []
  /\ decrypt_envelope rolling_options session_ulid scenario_cookie
     = Some {| _data := user_1; _expires := 1000 |}
  /\ (1200 <= 700 + store_maxAge rolling_options)%Z
  /\ fst (cookieSessionStore_get rolling_options 1200 session_ulid
            (echo_request rolling_options scenario_cookie)) = Some VNull.
Proof.
  repeat split; try (vm_compute; reflexivity).
  vm_compute. discriminate.
Qed.

(** The renew policy at time 700 on a session expiring at 1000, with 400
    of [renewBefore]: 300 are left, the expiry moves to 1700. *)
Lemma expiry_follows_policy_witness :
  cookieSessionStore_throws renew_options = None
  /\ exists new,
       cookieSessionStore_get renew_options 700 session_ulid
         (echo_request renew_options scenario_cookie)
       = (Some user_1,
          set_sessionMetaData
            (Some {| sessionId := session_ulid; expiresTime := new |})
            (echo_request renew_options scenario_cookie))
       /\ follows_policy renew_options 700 1000 new
       /\ authHeader
            (snd (cookieSessionStore_get renew_options 700 session_ulid
                    (echo_request renew_options scenario_cookie)))
          = authHeader (echo_request renew_options scenario_cookie).
Proof.
  split; [reflexivity|].
  exact (proj1 (expiry_follows_policy renew_options 700 eq_refl)
               session_ulid (echo_request renew_options scenario_cookie)
               scenario_cookie {| _data := user_1; _expires := 1000 |}
               eq_refl eq_refl eq_refl).
Defined.

(** A valid credential resolved to [user_123]. *)
Lemma resolved_data_reaches_handler_witness :
  truthy (VStr "session-id") = true
  /\ exists w1,
       resolve valid_credential_config mock_request (initial_world None tt)
       = (None, w1)
       /\ userData w1 = Some user_123
       /\ modifiedState (write_modified false w1) = false.
Proof.
  split; [reflexivity|].
  refine (proj1 (resolved_data_reaches_handler valid_credential_config
                   mock_request (initial_world None tt) user_123
                   eq_refl eq_refl _)).
  discriminate.
Defined.

(** C7 as stated fails: with no [dataCreator], created with 0 the session
    reads back as [{}]; with a [dataCreator], it reads back as what the
    creator made of the data. *)
Lemma create_then_get_differs_from_input :
  create_then_get one_second_options session_ulid 0 0 (Some (VNum 0)) fresh_ambient
  = Some emptyObject
  /\ create_then_get one_second_options session_ulid 0 0 (Some (VNum 0)) fresh_ambient
     <> Some (VNum 0)
  /\ create_then_get stamping_options session_ulid 0 0 (Some user_1) fresh_ambient
     <> Some user_1.
Proof.
  split; [vm_compute; reflexivity|].
  split; vm_compute; discriminate.
Qed.

(** The expiry scenario read back in time, in the symbolic runtime. *)
Lemma create_then_get_yields_created_data_witness :
  (500 <= 0 + store_maxAge one_second_options)%Z
  /\ create_then_get one_second_options session_ulid 0 500 (Some user_1) fresh_ambient
     = Some user_1.
Proof.
  assert (H : (500 <= 0 + store_maxAge one_second_options)%Z).
  { change (500 <= 1000)%Z. lia. }
  split; [exact H|].
  exact (proj1 (proj2 (@create_then_get_yields_created_data symbolic
                         one_second_options symbolic_laws session_ulid 0 500
                         (Some user_1) fresh_ambient H))
               eq_refl user_1 eq_refl eq_refl).
Defined.

(** C8 as stated fails: a valid credential is resolved, so the population
    raises the flag, and the reset before the handler lowers it. *)
Lemma flag_lowered_after_population :
  trace (snd valid_credential_run)
  = [ParserGet; StoreGet (VStr "session-id");
     ModifiedWrite true; ModifiedWrite false; Next]
  /\ ~ never_lowered (trace (snd valid_credential_run)).
Proof.
  split; [reflexivity|].
  intros H.
  apply (H [ParserGet; StoreGet (VStr "session-id")] [ModifiedWrite false; Next]).
  - reflexivity.
  - left. reflexivity.
Qed.

(** [destroy] on the loaded session, unmodified so far. *)
Lemma destroy_clears_data_and_marks_modified_witness :
  userData (loaded_world false) = Some user_123
  /\ fst (store_destroy (sessionStore valid_credential_config)
            (shared (loaded_world false))) = Some true
  /\ fst (destroy valid_credential_config (loaded_world false)) = Some true
  /\ userData (snd (destroy valid_credential_config (loaded_world false))) = None
  /\ modifiedState (snd (destroy valid_credential_config (loaded_world false))) = true.
Proof.
  split; [reflexivity|]. split; [reflexivity|].
  pose proof (destroy_clears_data_and_marks_modified valid_credential_config
                (loaded_world false) user_123 eq_refl eq_refl) as (A & B & C & _).
  exact (conj A (conj B C)).
Defined.

(** [create] with the empty string. *)
Lemma create_replaces_falsy_data_witness :
  dataCreator one_second_options = None
  /\ falsy (Some (VStr "")) = true
  /\ fst (cookieSessionStore_create one_second_options session_ulid 0
            (Some (VStr "")) fresh_ambient) = Some emptyObject.
Proof.
  split; [reflexivity|]. split; [reflexivity|].
  exact (proj1 (create_replaces_falsy_data one_second_options session_ulid 0
                  (Some (VStr "")) fresh_ambient eq_refl eq_refl)).
Defined.

(** * Further properties of the session context and the middleware *)

Section SessionCoverage.
Context {rt : Runtime} {X : Type} (config : @SessionConfig rt X).

Lemma emits_refl (f : Event -> bool) (w : @World rt X) : emits f w w.
Proof. exists []. split; [symmetry; apply app_nil_r | reflexivity]. Qed.

Lemma emits_trans (f : Event -> bool) (w1 w2 w3 : @World rt X) :
  emits f w1 w2 -> emits f w2 w3 -> emits f w1 w3.
Proof.
  intros (e1 & T1 & F1) (e2 & T2 & F2). exists (e1 ++ e2). split.
  - rewrite T2, T1. symmetry. apply app_assoc.
  - rewrite forallb_app, F1, F2. reflexivity.
Qed.

Lemma emits_after_call (f : Event -> bool) (e : Event) (s : Shared)
    (w : @World rt X) :
  f e = true -> emits f w (after_call e s w).
Proof. intros He. exists [e]. simpl. rewrite He. auto. Qed.

Lemma emits_push_header (f : Event -> bool) (h : Response) (w : @World rt X) :
  emits f w (push_header h w).
Proof. exists []. split; [symmetry; apply app_nil_r | reflexivity]. Qed.

Lemma emits_ctx_set (f : Event -> bool) (v : option JsVal) (w : @World rt X) :
  f (ModifiedWrite true) = true -> emits f w (ctx_set v w).
Proof. intros He. exists [ModifiedWrite true]. simpl. rewrite He. auto. Qed.

(** Peel the last step off a chain of worlds related by [emits]. *)
Ltac emits_chain :=
  repeat first
    [ apply emits_refl
    | eapply emits_trans;
      [ | first [ apply emits_push_header
                | apply emits_ctx_set; reflexivity
                | apply emits_after_call; reflexivity ] ] ].

Lemma emits_saveToStore (w : World) :
  emits handler_event w (snd (saveToStore config w)).
Proof.
  unfold saveToStore.
  destruct (userData w); [|apply emits_refl].
  destruct (modifiedState w); [rewrite call_eq; simpl; emits_chain|].
  destruct (store_touch (sessionStore config));
    rewrite call_eq; simpl; emits_chain.
Qed.

Lemma emits_regenerate (w : World) :
  emits handler_event w (snd (regenerate config w)).
Proof.
  unfold regenerate.
  destruct (userData w); [|apply emits_refl].
  rewrite call_eq.
  destruct (fst _); [rewrite call_eq|]; simpl; emits_chain.
Qed.

Lemma emits_destroy (w : World) :
  emits handler_event w (snd (destroy config w)).
Proof.
  unfold destroy.
  destruct (userData w); [|apply emits_refl].
  rewrite call_eq.
  destruct (falsy_result _); [|rewrite call_eq]; simpl; emits_chain.
Qed.

Lemma emits_run_handler (h : Handler) :
  forall w : World, emits handler_event w (snd (run_handler config h w)).
Proof.
  induction h as [r|k IH|v k IH|k IH|k IH|k IH|k IH]; intros w; simpl.
  - apply emits_refl.
  - apply IH.
  - eapply emits_trans; [apply emits_ctx_set; reflexivity | apply IH].
  - apply IH.
  - pose proof (emits_saveToStore w) as S.
    destruct (saveToStore config w) as [r w1].
    eapply emits_trans; [exact S | apply IH].
  - pose proof (emits_regenerate w) as S.
    destruct (regenerate config w) as [r w1].
    eapply emits_trans; [exact S | apply IH].
  - pose proof (emits_destroy w) as S.
    destruct (destroy config w) as [r w1].
    eapply emits_trans; [exact S | apply IH].
Qed.

Lemma emits_autosave (w : World) :
  emits handler_event w (snd (autosave config w)).
Proof.
  unfold autosave.
  destruct (autoSave config); [|apply emits_refl].
  destruct (userData w); [|apply emits_refl].
  destruct (modifiedState w); [rewrite call_eq; simpl; emits_chain|].
  destruct (store_touch (sessionStore config));
    rewrite call_eq; simpl; emits_chain.
Qed.

Lemma count_events_app (f : Event -> bool) (a b : list Event) :
  count_events f (a ++ b) = (count_events f a + count_events f b)%nat.
Proof. unfold count_events. rewrite List.filter_app. apply length_app. Qed.

Lemma count_events_none (f g : Event -> bool) (t : list Event) :
  (forall e, g e = true -> f e = false) ->
  forallb g t = true -> count_events f t = 0%nat.
Proof.
  intros Hfg. unfold count_events.
  induction t as [|e t IH]; simpl; [reflexivity|].
  intros H. apply andb_prop in H as [He Ht].
  rewrite (Hfg e He). apply IH, Ht.
Qed.

Lemma handler_event_not_next (e : Event) :
  handler_event e = true -> is_next e = false.
Proof. destruct e as [| | | | | | | |[|]|]; simpl; congruence. Qed.

Lemma handler_event_not_parser_get (e : Event) :
  handler_event e = true -> is_parser_get e = false.
Proof. destruct e as [| | | | | | | |[|]|]; simpl; congruence. Qed.

Lemma handler_event_not_store_get (e : Event) :
  handler_event e = true -> is_store_get e = false.
Proof. destruct e as [| | | | | | | |[|]|]; simpl; congruence. Qed.

(** The trace of the resolution: [Parser.get] first, then events among
    which there is no [next], no second [Parser.get], and at most one
    [Store.get]. *)
Lemma resolve_events (request : RequestInfo) (w : World) :
  exists evs,
    trace (snd (resolve config request w)) = trace w ++ ParserGet :: evs
    /\ count_events is_next evs = 0%nat
    /\ count_events is_parser_get evs = 0%nat
    /\ (count_events is_store_get evs <= 1)%nat.
Proof.
  unfold resolve, createNewAuth. rewrite call_eq.
  destruct (negb _).
  - rewrite call_eq. destruct (autoCreateOnMissing config); simpl.
    + rewrite call_eq. destruct (falsy _); [|rewrite call_eq]; simpl;
        rewrite <- ?app_assoc; simpl; eexists;
        (split; [reflexivity|]); cbn; auto.
    + rewrite <- ?app_assoc; simpl; eexists;
        (split; [reflexivity|]); cbn; auto.
  - rewrite call_eq.
    destruct (fst (store_get _ _ _)) as [[| | | | |]|]; simpl;
      try (rewrite call_eq; destruct (falsy _); [|rewrite call_eq]; simpl);
      rewrite <- ?app_assoc; simpl; eexists;
      (split; [reflexivity|]); cbn; auto.
Qed.

(** X4. In a request the middleware calls [Parser.get] exactly once and
    [Store.get] at most once, and it calls [next] exactly once when the
    resolution goes through and not at all when it stops there; nothing
    the handler does with the context adds to these. *)
Theorem middleware_calls_next_at_most_once
    (request : RequestInfo) (next : Handler) (w : World) :
  exists evs,
    trace (snd (middleware config request next w)) = trace w ++ evs
    /\ count_events is_parser_get evs = 1%nat
    /\ (count_events is_store_get evs <= 1)%nat
    /\ count_events is_next evs
       = match fst (resolve config request w) with
         | Some _ => 0%nat
         | None => 1%nat
         end.
Proof.
  unfold middleware.
  destruct (resolve_events request w) as (pre & Tpre & N0 & P0 & G1).
  destruct (resolve config request w) as [[e|] w1]; simpl in *.
  - exists (ParserGet :: pre). split; [exact Tpre|].
    change (ParserGet :: pre) with ([ParserGet] ++ pre).
    rewrite !count_events_app, N0, P0. cbn. auto.
  - unfold after_resolve, call_next.
    set (w2 := {| userData := userData (write_modified false w1);
                  modifiedState := modifiedState (write_modified false w1);
                  shared := shared (write_modified false w1);
                  trace := trace (write_modified false w1) ++ [Next] |}).
    pose proof (emits_run_handler next w2) as (e1 & T1 & F1).
    destruct (run_handler config next w2) as [r w3]. simpl in T1.
    pose proof (emits_autosave w3) as (e2 & T2 & F2).
    assert (T : trace (snd (autosave config w3))
                = trace w ++ ([ParserGet] ++ pre)
                          ++ ([ModifiedWrite false; Next] ++ e1 ++ e2)).
    { rewrite T2, T1. unfold w2. simpl. rewrite Tpre.
      rewrite <- !app_assoc. reflexivity. }
    exists (([ParserGet] ++ pre) ++ ([ModifiedWrite false; Next] ++ e1 ++ e2)).
    split.
    + destruct (autosave config w3) as [[e|] w4]; exact T.
    + rewrite !count_events_app, N0, P0.
      rewrite (count_events_none is_next handler_event e1 handler_event_not_next F1).
      rewrite (count_events_none is_next handler_event e2 handler_event_not_next F2).
      rewrite (count_events_none is_parser_get handler_event e1
                 handler_event_not_parser_get F1).
      rewrite (count_events_none is_parser_get handler_event e2
                 handler_event_not_parser_get F2).
      rewrite (count_events_none is_store_get handler_event e1
                 handler_event_not_store_get F1).
      rewrite (count_events_none is_store_get handler_event e2
                 handler_event_not_store_get F2).
      cbn. repeat split; lia.
Qed.

(** X1. A request without a credential, with [autoCreateOnMissing] off:
    the middleware calls [Parser.get] and [Parser.remove] and nothing
    else before the handler, no store operation among them; the context
    keeps the data and the flag it had, and the handler's first [get]
    reads that data. *)
Theorem missing_credential_without_autocreate
    (request : RequestInfo) (w : World) :
  truthy (fst (parser_get (sessionParser config) request (shared w))) = false ->
  autoCreateOnMissing config = false ->
  (exists w1, resolve config request w = (None, w1)
              /\ trace w1 = trace w ++ [ParserGet; ParserRemove]
              /\ userData w1 = userData w
              /\ modifiedState w1 = modifiedState w)
  /\ forall k : option JsVal -> Handler,
       middleware config request (CtxGet k) w
       = middleware config request (k (userData w)) w.
Proof.
  intros Hc Ha.
  assert (R : exists w1, resolve config request w = (None, w1)
                         /\ trace w1 = trace w ++ [ParserGet; ParserRemove]
                         /\ userData w1 = userData w
                         /\ modifiedState w1 = modifiedState w).
  { unfold resolve. rewrite call_eq, Hc. simpl. rewrite call_eq, Ha. simpl.
    eexists. split; [reflexivity|]. simpl. rewrite <- app_assoc. auto. }
  split; [exact R|].
  destruct R as (w1 & R & _ & U & _).
  intros k. unfold middleware. rewrite R.
  unfold after_resolve, call_next. simpl. rewrite U. reflexivity.
Qed.

(** X2. Where [Store.get] reports an internal error ([undefined]) the
    middleware answers the 500 response whatever the handler is: the
    handler is not run, no session is created, and the context keeps its
    data. *)
Theorem store_internal_error_stops_request
    (request : RequestInfo) (w : World) :
  let parsed := parser_get (sessionParser config) request (shared w) in
  truthy (fst parsed) = true ->
  fst (store_get (sessionStore config) (fst parsed) (snd parsed)) = None ->
  exists w1,
    (forall next : Handler,
        middleware config request next w = (internal_error, w1))
    /\ status_of (@internal_error rt) = 500%Z
    /\ trace w1 = trace w ++ [ParserGet; StoreGet (fst parsed)]
    /\ userData w1 = userData w.
Proof.
  intros parsed Ht Hg.
  eexists. split; [|split; [reflexivity|]].
  - intros next. unfold middleware, resolve.
    rewrite call_eq. fold parsed. rewrite Ht. simpl.
    rewrite call_eq. simpl. fold parsed. rewrite Hg. reflexivity.
  - simpl. rewrite <- app_assoc. auto.
Qed.

(** X3. Where [Store.get] answers [null] and [Store.create] then returns
    a truthy value, the handler starts on the created data with
    [isModified] reading [false]: creating the session does not count as
    a modification. *)
Theorem created_session_reaches_handler
    (request : RequestInfo) (w : World) :
  let parsed := parser_get (sessionParser config) request (shared w) in
  let got := store_get (sessionStore config) (fst parsed) (snd parsed) in
  let created := store_create (sessionStore config) None (snd got) in
  truthy (fst parsed) = true ->
  fst got = Some VNull ->
  falsy (fst created) = false ->
  exists d,
    fst created = Some d
    /\ (exists w1, resolve config request w = (None, w1)
                   /\ userData w1 = Some d
                   /\ trace w1 = trace w ++ [ParserGet; StoreGet (fst parsed);
                                             StoreCreate None;
                                             ModifiedWrite true; ParserSet])
    /\ forall k : option JsVal -> bool -> Handler,
         middleware config request
           (CtxGet (fun v => CtxIsModified (fun m => k v m))) w
         = middleware config request (k (Some d) false) w.
Proof.
  intros parsed got created Ht Hg Hc.
  destruct (fst created) as [d|] eqn:Ed; [|discriminate Hc].
  exists d. split; [reflexivity|].
  assert (R : exists w1, resolve config request w = (None, w1)
                /\ userData w1 = Some d
                /\ trace w1 = trace w ++ [ParserGet; StoreGet (fst parsed);
                                          StoreCreate None;
                                          ModifiedWrite true; ParserSet]).
  { unfold resolve, createNewAuth. rewrite call_eq. fold parsed. rewrite Ht. simpl.
    rewrite call_eq. simpl. fold parsed. fold got. rewrite Hg.
    rewrite call_eq. simpl. fold created. rewrite Ed, Hc.
    rewrite call_eq. simpl.
    eexists. split; [reflexivity|]. simpl. rewrite <- !app_assoc. auto. }
  split; [exact R|].
  destruct R as (w1 & R & U & _).
  intros k. unfold middleware. rewrite R.
  unfold after_resolve, call_next. simpl. rewrite U. reflexivity.
Qed.

(** X5. A request without a credential, with [autoCreateOnMissing] on,
    where [Store.create] returns a falsy value ([undefined], but also a
    present one such as the empty string or 0): the middleware answers
    the 500 response whatever the handler is, after [Parser.get],
    [Parser.remove] and [Store.create]; it neither writes the context
    nor calls [Parser.set]. *)
Theorem falsy_create_result_is_an_error
    (request : RequestInfo) (w : World) :
  let parsed := parser_get (sessionParser config) request (shared w) in
  let removed := parser_remove (sessionParser config) (snd parsed) in
  let queued :=
    {| sessionHeader := sessionHeader (snd removed) ++ [fst removed];
       ext := ext (snd removed) |} in
  truthy (fst parsed) = false ->
  autoCreateOnMissing config = true ->
  falsy (fst (store_create (sessionStore config) None queued)) = true ->
  (exists w1,
      (forall next : Handler,
          middleware config request next w = (internal_error, w1))
      /\ trace w1 = trace w ++ [ParserGet; ParserRemove; StoreCreate None]
      /\ userData w1 = userData w
      /\ modifiedState w1 = modifiedState w)
  /\ falsy (Some (VStr "")) = true
  /\ falsy (Some (VNum 0)) = true.
Proof.
  intros parsed removed queued Ht Ha Hc.
  split; [|split; reflexivity].
  eexists. split; [|split].
  - intros next. unfold middleware, resolve, createNewAuth.
    rewrite call_eq. fold parsed. rewrite Ht. simpl.
    rewrite call_eq. simpl. fold parsed. fold removed. rewrite Ha.
    rewrite call_eq. simpl. fold queued. rewrite Hc. reflexivity.
  - simpl. rewrite <- !app_assoc. reflexivity.
  - simpl. auto.
Qed.

Lemma queue_grows_refl (w : @World rt X) : queue_grows w w.
Proof. exists []. symmetry. apply app_nil_r. Qed.

Lemma queue_grows_trans (w1 w2 w3 : @World rt X) :
  queue_grows w1 w2 -> queue_grows w2 w3 -> queue_grows w1 w3.
Proof.
  intros (m1 & H1) (m2 & H2). exists (m1 ++ m2).
  rewrite H2, H1. symmetry. apply app_assoc.
Qed.

Lemma queue_grows_push_header (h : Response) (w : @World rt X) :
  queue_grows w (push_header h w).
Proof. exists [h]. reflexivity. Qed.

Lemma queue_grows_ctx_set (v : option JsVal) (w : @World rt X) :
  queue_grows w (ctx_set v w).
Proof. exists []. symmetry. apply app_nil_r. Qed.

Lemma queue_grows_call {A : Type} (e : Event) (op : @Op rt X A) (w : @World rt X) :
  appends_headers op -> queue_grows w (snd (call e op w)).
Proof. intros H. rewrite call_eq. simpl. apply (H (shared w)). Qed.

Section KeepsHeaders.
Hypothesis keeps : keeps_headers config.

Lemma queue_grows_saveToStore (w : World) :
  queue_grows w (snd (saveToStore config w)).
Proof using keeps.
  destruct keeps as (_ & _ & _ & _ & Hset & _ & _ & Htouch).
  unfold saveToStore.
  destruct (userData w) as [d|]; [|apply queue_grows_refl].
  destruct (modifiedState w).
  - pose proof (queue_grows_call (StoreSet d) _ w (Hset d)) as Q.
    destruct (call _ _ w). exact Q.
  - destruct (store_touch (sessionStore config)) as [touch|] eqn:E.
    + pose proof (queue_grows_call StoreTouch _ w (Htouch touch eq_refl)) as Q.
      destruct (call _ _ w). exact Q.
    + pose proof (queue_grows_call (StoreSet d) _ w (Hset d)) as Q.
      destruct (call _ _ w). exact Q.
Qed.

Lemma queue_grows_autosave (w : World) :
  queue_grows w (snd (autosave config w)).
Proof using keeps.
  destruct keeps as (_ & _ & _ & _ & Hset & _ & _ & Htouch).
  unfold autosave.
  destruct (autoSave config); [|apply queue_grows_refl].
  destruct (userData w) as [d|]; [|apply queue_grows_refl].
  destruct (modifiedState w).
  - pose proof (queue_grows_call (StoreSet d) _ w (Hset d)) as Q.
    destruct (call _ _ w). exact Q.
  - destruct (store_touch (sessionStore config)) as [touch|] eqn:E.
    + pose proof (queue_grows_call StoreTouch _ w (Htouch touch eq_refl)) as Q.
      destruct (call _ _ w). exact Q.
    + pose proof (queue_grows_call (StoreSet d) _ w (Hset d)) as Q.
      destruct (call _ _ w). exact Q.
Qed.

Lemma queue_grows_regenerate (w : World) :
  queue_grows w (snd (regenerate config w)).
Proof using keeps.
  destruct keeps as (_ & Hpset & _ & _ & _ & Hcreate & _ & _).
  unfold regenerate.
  destruct (userData w) as [d|]; [|apply queue_grows_refl].
  pose proof (queue_grows_call (StoreCreate (Some d)) _ w (Hcreate (Some d))) as Q.
  destruct (call _ _ w) as [[c|] w1]; [|exact Q]. simpl in Q.
  pose proof (queue_grows_call ParserSet _ w1 Hpset) as Q2.
  destruct (call _ _ w1) as [h w2]. simpl in *.
  eapply queue_grows_trans; [exact Q|].
  eapply queue_grows_trans; [exact Q2 | apply queue_grows_push_header].
Qed.

Lemma queue_grows_destroy (w : World) :
  queue_grows w (snd (destroy config w)).
Proof using keeps.
  destruct keeps as (_ & _ & Hremove & _ & _ & _ & Hdestroy & _).
  unfold destroy.
  destruct (userData w) as [d|]; [|apply queue_grows_refl].
  pose proof (queue_grows_call StoreDestroy _ w Hdestroy) as Q.
  destruct (call _ _ w) as [r w1]. simpl in Q.
  destruct (falsy_result r); [exact Q|].
  pose proof (queue_grows_call ParserRemove _ (ctx_set None w1) Hremove) as Q2.
  destruct (call _ _ (ctx_set None w1)) as [h w2]. simpl in *.
  eapply queue_grows_trans; [exact Q|].
  eapply queue_grows_trans; [apply queue_grows_ctx_set|].
  eapply queue_grows_trans; [exact Q2 | apply queue_grows_push_header].
Qed.

Lemma queue_grows_run_handler (h : Handler) :
  forall w : World, queue_grows w (snd (run_handler config h w)).
Proof using keeps.
  induction h as [r|k IH|v k IH|k IH|k IH|k IH|k IH]; intros w; simpl.
  - apply queue_grows_refl.
  - apply IH.
  - eapply queue_grows_trans; [apply queue_grows_ctx_set | apply IH].
  - apply IH.
  - pose proof (queue_grows_saveToStore w) as S.
    destruct (saveToStore config w) as [r w1].
    eapply queue_grows_trans; [exact S | apply IH].
  - pose proof (queue_grows_regenerate w) as S.
    destruct (regenerate config w) as [r w1].
    eapply queue_grows_trans; [exact S | apply IH].
  - pose proof (queue_grows_destroy w) as S.
    destruct (destroy config w) as [r w1].
    eapply queue_grows_trans; [exact S | apply IH].
Qed.

Lemma queue_grows_createNewAuth (w : World) :
  queue_grows w (snd (createNewAuth config w)).
Proof using keeps.
  destruct keeps as (_ & Hpset & _ & _ & _ & Hcreate & _ & _).
  unfold createNewAuth.
  pose proof (queue_grows_call (StoreCreate None) _ w (Hcreate None)) as Q.
  destruct (call _ _ w) as [c w1]. simpl in Q.
  destruct (falsy c); [exact Q|].
  pose proof (queue_grows_call ParserSet _ (ctx_set c w1) Hpset) as Q2.
  destruct (call _ _ (ctx_set c w1)) as [h w2]. simpl in *.
  eapply queue_grows_trans; [exact Q|].
  eapply queue_grows_trans; [apply queue_grows_ctx_set|].
  eapply queue_grows_trans; [exact Q2 | apply queue_grows_push_header].
Qed.

Lemma queue_grows_resolve (request : RequestInfo) (w : World) :
  queue_grows w (snd (resolve config request w)).
Proof using keeps.
  pose proof keeps as (Hpget & _ & Hremove & Hget & _).
  unfold resolve.
  pose proof (queue_grows_call ParserGet _ w (Hpget request)) as Q.
  destruct (call _ _ w) as [c w1]. simpl in Q.
  destruct (negb (truthy c)).
  - pose proof (queue_grows_call ParserRemove _ w1 Hremove) as Q2.
    destruct (call _ _ w1) as [h w2]. simpl in Q2.
    assert (Q3 : queue_grows w (push_header h w2)).
    { eapply queue_grows_trans; [exact Q|].
      eapply queue_grows_trans; [exact Q2 | apply queue_grows_push_header]. }
    destruct (autoCreateOnMissing config); [|exact Q3].
    eapply queue_grows_trans; [exact Q3 | apply queue_grows_createNewAuth].
  - pose proof (queue_grows_call (StoreGet c) _ w1 (Hget c)) as Q2.
    destruct (call _ _ w1) as [g w2]. simpl in Q2.
    assert (Q3 : queue_grows w w2) by (eapply queue_grows_trans; eassumption).
    destruct g as [[| | | | |]|]; simpl;
      try (eapply queue_grows_trans; [exact Q3 | apply queue_grows_ctx_set]);
      try exact Q3.
    eapply queue_grows_trans; [exact Q3 | apply queue_grows_createNewAuth].
Qed.

End KeepsHeaders.

(** X6. With a store and a parser whose operations leave the queued
    mutations in place, nothing the middleware or the handler does drops
    or reorders a queued mutation: at the end of the request the queue
    starts with the queue as it was at the start, and the same holds
    across any handler. *)
Theorem queued_mutations_accumulate
    (request : RequestInfo) (next : Handler) (w : World) :
  keeps_headers config ->
  queue_grows w (snd (middleware config request next w))
  /\ forall (h : Handler) (w0 : World),
       queue_grows w0 (snd (run_handler config h w0)).
Proof.
  intros keeps. split; [|intros; apply queue_grows_run_handler, keeps].
  unfold middleware.
  pose proof (queue_grows_resolve keeps request w) as Q.
  destruct (resolve config request w) as [[e|] w1]; [exact Q|]. simpl in Q.
  unfold after_resolve, call_next.
  set (w2 := {| userData := userData (write_modified false w1);
                modifiedState := modifiedState (write_modified false w1);
                shared := shared (write_modified false w1);
                trace := trace (write_modified false w1) ++ [Next] |}).
  pose proof (queue_grows_run_handler keeps next w2) as Q2.
  destruct (run_handler config next w2) as [r w3]. simpl in Q2.
  pose proof (queue_grows_autosave keeps w3) as Q3.
  assert (Q4 : queue_grows w (snd (autosave config w3))).
  { eapply queue_grows_trans; [exact Q|].
    eapply queue_grows_trans; [|exact Q3]. exact Q2. }
  destruct (autosave config w3) as [[e|] w4]; exact Q4.
Qed.

(** X7. [regenerate]: without data it answers [false] and does nothing.
    With data it calls [Store.create] with that data; on [undefined] it
    answers [undefined] and does not call [Parser.set]; on any other
    result it answers [true] and calls [Parser.set].  In every case the
    context keeps its data and its flag: what the store returned is not
    written back, and regenerating is not a modification. *)
Theorem regenerate_keeps_the_context (w : World) :
  userData (snd (regenerate config w)) = userData w
  /\ modifiedState (snd (regenerate config w)) = modifiedState w
  /\ match userData w with
     | None => regenerate config w = (Some false, w)
     | Some d =>
         match fst (store_create (sessionStore config) (Some d) (shared w)) with
         | None =>
             fst (regenerate config w) = None
             /\ trace (snd (regenerate config w))
                = trace w ++ [StoreCreate (Some d)]
         | Some _ =>
             fst (regenerate config w) = Some true
             /\ trace (snd (regenerate config w))
                = trace w ++ [StoreCreate (Some d); ParserSet]
         end
     end.
Proof.
  unfold regenerate.
  destruct (userData w) as [d|] eqn:U; [|auto].
  rewrite call_eq.
  destruct (fst (store_create _ _ _)); [rewrite call_eq|]; simpl;
    rewrite <- ?app_assoc; auto.
Qed.

(** X8. [destroy] on present data where [Store.destroy] does not answer
    [true]: the store's answer is returned as it is ([false] as [false],
    [undefined] as [undefined]), the context keeps its data and its flag,
    and [Parser.remove] is not called. *)
Theorem failed_destroy_keeps_the_session (w : World) (d : JsVal) :
  userData w = Some d ->
  falsy_result (fst (store_destroy (sessionStore config) (shared w))) = true ->
  fst (destroy config w)
  = fst (store_destroy (sessionStore config) (shared w))
  /\ userData (snd (destroy config w)) = Some d
  /\ modifiedState (snd (destroy config w)) = modifiedState w
  /\ trace (snd (destroy config w)) = trace w ++ [StoreDestroy].
Proof.
  intros U Hf. unfold destroy. rewrite U, call_eq, Hf. simpl. auto.
Qed.

(** X9. [saveToStore] leaves the data and the flag as they are, so a save
    does not clear [isModified]: with [autoSave] on, a handler that saves
    modified data by hand makes the middleware write the same data a
    second time after it returns. *)
Theorem manual_save_does_not_clear_the_flag (w : World) (d : JsVal) :
  autoSave config = true ->
  userData w = Some d ->
  modifiedState w = true ->
  userData (snd (saveToStore config w)) = Some d
  /\ modifiedState (snd (saveToStore config w)) = true
  /\ trace (snd (autosave config (snd (saveToStore config w))))
     = trace w ++ [StoreSet d; StoreSet d].
Proof.
  intros Ha Hd Hm.
  unfold saveToStore. rewrite Hd, Hm, call_eq. simpl.
  unfold autosave. rewrite Ha. simpl. rewrite Hd, Hm, call_eq. simpl.
  rewrite <- app_assoc. auto.
Qed.

End SessionCoverage.

(** * Further properties of the cookie store and the cookie parser *)

Section CookieCoverage.
Context {rt : Runtime} {wire : Wire}.
Context (o : CookieSessionStoreOptions) (p : CookieSessionParserOptions).

Local Open Scope Z_scope.

Lemma appends_none (a : Ambient) : appends_at_most_one a a.
Proof.
  split; [reflexivity|]. exists []. split; [symmetry; apply app_nil_r|].
  simpl. lia.
Qed.

Lemma appends_one (h : Response) (m : option SessionMeta) (a : Ambient) :
  appends_at_most_one a (push_authHeader h (set_sessionMetaData m a)).
Proof.
  split; [reflexivity|]. exists [h]. split; [reflexivity|]. simpl. lia.
Qed.

(** X10. Each of the four store operations leaves the request as it is
    and queues at most one response, behind those already queued. *)
Theorem store_operations_only_append
    (ulid sid : string) (now : Z) (userData : option JsVal) (data : JsVal)
    (a : Ambient) :
  appends_at_most_one a (snd (cookieSessionStore_create o ulid now userData a))
  /\ appends_at_most_one a (snd (cookieSessionStore_get o now sid a))
  /\ appends_at_most_one a (snd (cookieSessionStore_set o now data a))
  /\ appends_at_most_one a (snd (cookieSessionStore_destroy o a)).
Proof.
  split; [|split; [|split]].
  - apply appends_one.
  - unfold cookieSessionStore_get.
    destruct (read_cookie o (requestInfo a)); [|apply appends_none].
    destruct (decrypt_envelope o sid t).
    + destruct (expired e now); simpl; [apply appends_none|].
      split; [reflexivity|]. exists []. split; [symmetry; apply app_nil_r|].
      simpl. lia.
    + simpl. split; [reflexivity|]. eexists. split; [reflexivity|]. simpl. lia.
  - unfold cookieSessionStore_set.
    destruct (sessionMetaData a); [apply appends_one | apply appends_none].
  - simpl. split; [reflexivity|]. eexists. split; [reflexivity|]. simpl. lia.
Qed.

(** X11. [destroy] answers [true], queues the clearing cookie and clears
    the metadata; in the rest of the request [set] answers [false] and
    queues nothing, and the parser's [set] gives the bare response. *)
Theorem destroy_ends_the_session (now : Z) (data : JsVal) (a : Ambient) :
  let a1 := snd (cookieSessionStore_destroy o a) in
  fst (cookieSessionStore_destroy o a) = Some true
  /\ authHeader a1 = authHeader a ++ [clear_cookie o]
  /\ sessionMetaData a1 = None
  /\ cookieSessionStore_set o now data a1 = (Some false, a1)
  /\ cookieSessionParser_set p a1 = [].
Proof. repeat split. Qed.

(** X12. What [set] writes is read back: after [set] on a published
    session, a [get] with the same session id on a request carrying the
    emitted cookie answers the data written, as long as the expiry [set]
    published is not behind the time of the read. *)
Theorem set_then_get_yields_written_data {laws : RuntimeLaws rt}
    (t0 t1 : Z) (data : JsVal) (a : Ambient) (m : SessionMeta) :
  sessionMetaData a = Some m ->
  let a1 := snd (cookieSessionStore_set o t0 data a) in
  fst (cookieSessionStore_set o t0 data a) = Some true
  /\ exists value m',
       emitted_value a1 = Some value
       /\ sessionMetaData a1 = Some m'
       /\ sessionId m' = sessionId m
       /\ (t1 <= expiresTime m' ->
           fst (cookieSessionStore_get o t1 (sessionId m) (echo_request o value))
           = Some data).
Proof.
  intros Hm a1. subst a1. unfold cookieSessionStore_set. rewrite Hm. simpl.
  split; [reflexivity|].
  unfold emitted_value. simpl. rewrite last_snoc.
  eexists. eexists. split; [reflexivity|]. split; [reflexivity|].
  split; [reflexivity|]. simpl. intros Ht.
  unfold cookieSessionStore_get.
  rewrite read_cookie_echo_request, (decrypt_encrypt_envelope o (laws:=laws)).
  unfold expired. simpl.
  match goal with
  | |- context [negb (?x =? 0) && (?x <? t1)] =>
      destruct (Z.ltb_spec x t1); [lia|]
  end.
  rewrite andb_false_r. reflexivity.
Qed.

(** X13. A session read after its time is gone: [create] at [t0] and
    [get] at a time past [t0 + maxAge], on the cookie [create] emitted
    and with the session id it published, answers [null] whatever the
    data, the session expiry [t0 + maxAge] not being 0. *)
Theorem create_then_late_get_yields_null {laws : RuntimeLaws rt}
    (ulid : string) (t0 t1 : Z) (userData : option JsVal) (a : Ambient) :
  t0 + store_maxAge o <> 0 ->
  t0 + store_maxAge o < t1 ->
  create_then_get o ulid t0 t1 userData a = Some VNull.
Proof.
  intros H0 Hlt.
  unfold create_then_get, cookieSessionStore_create, emitted_value. simpl.
  rewrite last_snoc.
  rewrite (get_expired o t1 ulid _ _ _ (read_cookie_echo_request o _)
             (decrypt_encrypt_envelope o (laws:=laws) ulid _)); simpl; auto.
Qed.

(** X14. Writes and the lifetime of a session.  After [create] at [t0]
    and [set] at [t1] the session is readable until the expiry the policy
    gives the write, and answers [null] after it.  That expiry is
    [t1 + maxAge] under rolling; under renew it is [t1 + maxAge] when the
    write falls inside the window ([t0 + maxAge - t1 < renewBefore]) and
    [t0 + maxAge], the time set at creation, otherwise; with neither
    policy it is [t0 + maxAge]. *)
Theorem writes_move_the_expiry_by_policy {laws : RuntimeLaws rt}
    (ulid : string) (t0 t1 t2 : Z) (created written : JsVal) (a : Ambient) :
  cookieSessionStore_throws o = None ->
  exists new,
    follows_policy o t1 (t0 + store_maxAge o) new
    /\ (t2 <= new ->
        create_set_get o ulid t0 t1 t2 created written a = Some written)
    /\ (new <> 0 -> new < t2 ->
        create_set_get o ulid t0 t1 t2 created written a = Some VNull).
Proof.
  intros Hok. eexists.
  split; [apply (policy_cases o t1 (t0 + store_maxAge o) Hok)|].
  unfold create_set_get, cookieSessionStore_create, cookieSessionStore_set,
    emitted_value. simpl. rewrite !last_snoc.
  unfold cookieSessionStore_get.
  rewrite read_cookie_echo_request, (decrypt_encrypt_envelope o (laws:=laws)).
  unfold expired. simpl.
  match goal with
  | |- context [negb (?x =? 0) && (?x <? t2)] => set (new := x)
  end.
  split.
  - intros Ht. destruct (Z.ltb_spec new t2); [lia|].
    rewrite andb_false_r. reflexivity.
  - intros H0 Ht. destruct (Z.ltb_spec new t2); [|lia].
    destruct (Z.eqb_spec new 0); [contradiction|]. reflexivity.
Qed.



(** X17. The session of one request is the session of the next: after
    [create] and the parser's [set], a request that carries both cookies
    back has its credential read by the parser's [get] as the session id
    allotted, and the store's [get] on it answers the data [create]
    returned.  This needs the codec to give the id back, the encoded id
    to be a non-empty cookie value, the two cookies to have different
    names, and no more than [maxAge] to have elapsed. *)
Theorem create_then_resolve_yields_created_data {laws : RuntimeLaws rt}
    (ulid : string) (t0 t1 : Z) (userData : option JsVal) (a : Ambient) :
  decode_sessionId p (encode_sessionId p ulid) = ulid ->
  text_truthy (encode_sessionId p ulid) = true ->
  options_sessionIdKey p <> options_sessionStoreKey o ->
  t1 <= t0 + store_maxAge o ->
  (forall data,
      cookieSessionParser_get p
        (requestInfo (echo_both o p (encode_sessionId p ulid) data)) = Some ulid)
  /\ create_then_resolve o p ulid t0 t1 userData a
     = fst (cookieSessionStore_create o ulid t0 userData a).
Proof.
  intros Hcodec Htruthy Hkeys Ht.
  assert (G : forall data,
             cookieSessionParser_get p
               (requestInfo (echo_both o p (encode_sessionId p ulid) data))
             = Some ulid).
  { intros data. unfold cookieSessionParser_get, echo_both. simpl.
    rewrite lookup_insert_eq, Htruthy, Hcodec. reflexivity. }
  split; [exact G|].
  unfold create_then_resolve.
  set (a1 := snd (cookieSessionStore_create o ulid t0 userData a)).
  assert (C : cookie_value (cookieSessionParser_set p a1)
              = Some (encode_sessionId p ulid)) by reflexivity.
  assert (E : exists env,
             emitted_value a1 = Some (encrypt_envelope o ulid env)
             /\ fst (cookieSessionStore_create o ulid t0 userData a)
                = Some (_data env)
             /\ _expires env = t0 + store_maxAge o).
  { subst a1. unfold cookieSessionStore_create, emitted_value. simpl.
    rewrite last_snoc. eexists. repeat split. }
  destruct E as (env & E & D & Ex).
  rewrite C, E, G, D.
  unfold cookieSessionStore_get, read_cookie, echo_both. simpl.
  rewrite lookup_insert_ne by exact Hkeys.
  rewrite lookup_singleton_eq, (decrypt_encrypt_envelope o (laws:=laws)).
  unfold expired. rewrite Ex.
  destruct (Z.ltb_spec (t0 + store_maxAge o) t1); [lia|].
  rewrite andb_false_r. reflexivity.
Qed.

(** X18. A request is anonymous for the parser when it has no cookies,
    no cookie named by [sessionIdKey], or an empty one: [get] answers
    [null].  It is for the store when it has no session-data cookie:
    [get] answers [null], queues nothing and publishes no metadata. *)
Theorem absent_cookies_read_as_null
    (now : Z) (sid : string) (r : RequestInfo) (a : Ambient) :
  (cookies r = None -> cookieSessionParser_get p r = None)
  /\ (forall jar, cookies r = Some jar -> jar !! options_sessionIdKey p = None ->
                  cookieSessionParser_get p r = None)
  /\ (forall jar t, cookies r = Some jar ->
                    jar !! options_sessionIdKey p = Some t ->
                    text_truthy t = false ->
                    cookieSessionParser_get p r = None)
  /\ (cookies (requestInfo a) = None ->
      cookieSessionStore_get o now sid a = (Some VNull, a))
  /\ (forall jar, cookies (requestInfo a) = Some jar ->
                  jar !! options_sessionStoreKey o = None ->
                  cookieSessionStore_get o now sid a = (Some VNull, a)).
Proof.
  unfold cookieSessionParser_get, cookieSessionStore_get, read_cookie.
  repeat split.
  - intros H. rewrite H. reflexivity.
  - intros jar H1 H2. rewrite H1, H2. reflexivity.
  - intros jar t H1 H2 H3. rewrite H1, H2, H3. reflexivity.
  - intros H. rewrite H. reflexivity.
  - intros jar H1 H2. rewrite H1, H2. reflexivity.
Qed.

End CookieCoverage.

(** * The further properties on the worked examples *)

(** The mock stores and parsers leave the queued mutations in place. *)
Lemma mock_keeps_headers (autoCreate save : bool) (credential : JsVal)
    (getResult : option JsVal) (setResult : option bool)
    (createResult : option JsVal) (destroyResult : option bool)
    (touchResult : option (option bool)) :
  keeps_headers
    {| autoCreateOnMissing := autoCreate; autoSave := save;
       sessionParser := mockParser credential;
       sessionStore := mockStore getResult setResult createResult
                         destroyResult touchResult |}.
Proof.
  assert (K : forall (A : Type) (r : A),
             @appends_headers symbolic unit A (fun s => (r, s))).
  { intros A r s. exists []. symmetry. apply app_nil_r. }
  repeat split; simpl; intros; try apply K.
  destruct touchResult as [r|]; [|discriminate].
  match goal with H : Some _ = Some _ |- _ => inversion H; subst end.
  apply K.
Qed.

(** A request without a credential, no automatic creation. *)
Lemma missing_credential_without_autocreate_witness :
  truthy VNull = false
  /\ autoCreateOnMissing anonymous_config = false
  /\ exists w1,
       resolve anonymous_config mock_request (initial_world None tt) = (None, w1)
       /\ trace w1 = trace (initial_world None tt) ++ [ParserGet; ParserRemove]
       /\ userData w1 = None
       /\ modifiedState w1 = false.
Proof.
  split; [reflexivity|]. split; [reflexivity|].
  exact (proj1 (missing_credential_without_autocreate anonymous_config
                  mock_request (initial_world None tt) eq_refl eq_refl)).
Defined.

(** A credential on which the store reports an internal error. *)
Lemma store_internal_error_stops_request_witness :
  truthy (VStr "session-id") = true
  /\ exists w1,
       (forall next : Handler,
           middleware get_errors_config mock_request next (initial_world None tt)
           = (internal_error, w1))
       /\ status_of (@internal_error symbolic) = 500%Z
       /\ trace w1 = trace (initial_world None tt)
                     ++ [ParserGet; StoreGet (VStr "session-id")]
       /\ userData w1 = None.
Proof.
  split; [reflexivity|].
  exact (store_internal_error_stops_request get_errors_config mock_request
           (initial_world None tt) eq_refl eq_refl).
Defined.

(** A stale credential, and a store that creates [user_123]. *)
Lemma created_session_reaches_handler_witness :
  truthy (VStr "stale-id") = true
  /\ exists w1,
       resolve unknown_credential_config mock_request (initial_world None tt)
       = (None, w1)
       /\ userData w1 = Some user_123.
Proof.
  split; [reflexivity|].
  destruct (created_session_reaches_handler unknown_credential_config
              mock_request (initial_world None tt) eq_refl eq_refl eq_refl)
    as (d & Hd & (w1 & R & U & _) & _).
  exists w1. split; [exact R|].
  rewrite U. symmetry. exact Hd.
Defined.

(** No credential, automatic creation, [create] returning the empty
    string. *)
Lemma falsy_create_result_is_an_error_witness :
  falsy (Some (VStr "")) = true
  /\ exists w1,
       (forall next : Handler,
           middleware empty_create_config mock_request next (initial_world None tt)
           = (internal_error, w1))
       /\ trace w1 = trace (initial_world None tt)
                     ++ [ParserGet; ParserRemove; StoreCreate None]
       /\ userData w1 = None
       /\ modifiedState w1 = false.
Proof.
  split; [reflexivity|].
  exact (proj1 (falsy_create_result_is_an_error empty_create_config mock_request
                  (initial_world None tt) eq_refl eq_refl eq_refl)).
Defined.

(** The queue across a request that destroys its session. *)
Lemma queued_mutations_accumulate_witness :
  keeps_headers autosave_config
  /\ queue_grows (initial_world None tt)
       (snd (middleware autosave_config mock_request
               (CtxDestroy (fun _ => answer)) (initial_world None tt))).
Proof.
  split; [apply mock_keeps_headers|].
  exact (proj1 (queued_mutations_accumulate autosave_config mock_request
                  (CtxDestroy (fun _ => answer)) (initial_world None tt)
                  (mock_keeps_headers _ _ _ _ _ _ _ _))).
Defined.

(** [destroy] with a store that answers [false]. *)
Lemma failed_destroy_keeps_the_session_witness :
  userData (loaded_world false) = Some user_123
  /\ falsy_result (Some false) = true
  /\ fst (destroy failing_store_config (loaded_world false)) = Some false
  /\ userData (snd (destroy failing_store_config (loaded_world false)))
     = Some user_123.
Proof.
  split; [reflexivity|]. split; [reflexivity|].
  destruct (failed_destroy_keeps_the_session failing_store_config
              (loaded_world false) user_123 eq_refl eq_refl) as (A & B & _).
  exact (conj A B).
Defined.

(** A manual save of modified data, then the automatic save. *)
Lemma manual_save_does_not_clear_the_flag_witness :
  autoSave autosave_config = true
  /\ userData (loaded_world true) = Some user_123
  /\ modifiedState (loaded_world true) = true
  /\ trace (snd (autosave autosave_config
                   (snd (saveToStore autosave_config (loaded_world true)))))
     = [StoreSet user_123; StoreSet user_123].
Proof.
  split; [reflexivity|]. split; [reflexivity|]. split; [reflexivity|].
  exact (proj2 (proj2 (manual_save_does_not_clear_the_flag autosave_config
                         (loaded_world true) user_123 eq_refl eq_refl eq_refl))).
Defined.

(** A write at time 700 on the published session, read back at 900. *)
Lemma set_then_get_yields_written_data_witness :
  sessionMetaData published_ambient
  = Some {| sessionId := session_ulid; expiresTime := 1000 |}
  /\ fst (cookieSessionStore_set one_second_options 700 user_1 published_ambient)
     = Some true.
Proof.
  split; [reflexivity|].
  exact (proj1 (@set_then_get_yields_written_data symbolic one_second_options
                  symbolic_laws 700 900 user_1 published_ambient
                  {| sessionId := session_ulid; expiresTime := 1000 |} eq_refl)).
Defined.

(** The expiry scenario: created at 0 with one second to live, read at
    1500. *)
Lemma create_then_late_get_yields_null_witness :
  (0 + store_maxAge one_second_options <> 0)%Z
  /\ (0 + store_maxAge one_second_options < 1500)%Z
  /\ create_then_get one_second_options session_ulid 0 1500 (Some user_1)
       fresh_ambient = Some VNull.
Proof.
  assert (H0 : (0 + store_maxAge one_second_options <> 0)%Z).
  { change (1000 <> 0)%Z. lia. }
  assert (H1 : (0 + store_maxAge one_second_options < 1500)%Z).
  { change (1000 < 1500)%Z. lia. }
  split; [exact H0|]. split; [exact H1|].
  exact (@create_then_late_get_yields_null symbolic one_second_options
           symbolic_laws session_ulid 0 1500 (Some user_1) fresh_ambient H0 H1).
Defined.

(** A renewing session created at 0 with one second to live, written at
    700, inside the window of 400, and read at 1500. *)
Lemma writes_move_the_expiry_by_policy_witness :
  cookieSessionStore_throws renew_options = None
  /\ create_set_get renew_options session_ulid 0 700 1500 user_1 user_123
       fresh_ambient = Some user_123.
Proof.
  split; [reflexivity|].
  destruct (@writes_move_the_expiry_by_policy symbolic renew_options
              symbolic_laws session_ulid 0 700 1500 user_1 user_123
              fresh_ambient eq_refl) as (new & (_ & _ & Hnew & _) & Hread & _).
  apply Hread.
  rewrite (Hnew eq_refl); [change (1500 <= 1700)%Z | change (1000 - 700 < 400)%Z];
    lia.
Defined.


(** The scenario's session created at 0 and resolved by the next request
    at 500, through both cookies. *)
Lemma create_then_resolve_yields_created_data_witness :
  decode_sessionId default_parser_options
    (encode_sessionId default_parser_options session_ulid) = session_ulid
  /\ text_truthy (encode_sessionId default_parser_options session_ulid) = true
  /\ options_sessionIdKey default_parser_options
     <> options_sessionStoreKey one_second_options
  /\ create_then_resolve one_second_options default_parser_options
       session_ulid 0 500 (Some user_1) fresh_ambient = Some user_1.
Proof.
  assert (K : options_sessionIdKey default_parser_options
              <> options_sessionStoreKey one_second_options).
  { discriminate. }
  assert (H : (500 <= 0 + store_maxAge one_second_options)%Z).
  { change (500 <= 1000)%Z. lia. }
  split; [reflexivity|]. split; [reflexivity|]. split; [exact K|].
  exact (proj2 (@create_then_resolve_yields_created_data symbolic symbolic_wire
                  one_second_options default_parser_options symbolic_laws
                  session_ulid 0 500 (Some user_1) fresh_ambient
                  eq_refl eq_refl K H)).
Defined.

(** * Reads followed by writes, and logging out *)

Section Compositions.
Context {rt : Runtime}.

Local Open Scope Z_scope.

(** The expiry a call at [now] leaves is left as it is by a second call
    at the same time. *)
Lemma policy_settles (o : CookieSessionStoreOptions) (now old : Z) :
  let new :=
    if options_rolling o then now + store_maxAge o
    else if options_renew o then
      if old - now <? options_renewBefore o then now + store_maxAge o else old
    else old in
  (if options_rolling o then now + store_maxAge o
   else if options_renew o then
     if new - now <? options_renewBefore o then now + store_maxAge o else new
   else new) = new.
Proof.
  simpl.
  destruct (options_rolling o); [reflexivity|].
  destruct (options_renew o); [|reflexivity].
  destruct (old - now <? options_renewBefore o) eqn:E.
  - destruct (now + store_maxAge o - now <? options_renewBefore o); reflexivity.
  - rewrite E. reflexivity.
Qed.

(** X19. A read and a write of one request agree on the expiry: after a
    [get] that finds a live session, a [set] at the same time leaves the
    published expiry as [get] computed it and writes that expiry into the
    payload, under each policy. *)
Theorem set_after_get_keeps_the_expiry (o : CookieSessionStoreOptions)
    (now : Z) (sid : string) (data : JsVal) (a : Ambient)
    (payload : Text) (env : Envelope) :
  read_cookie o (requestInfo a) = Some payload ->
  decrypt_envelope o sid payload = Some env ->
  expired env now = false ->
  let a1 := snd (cookieSessionStore_get o now sid a) in
  let a2 := snd (cookieSessionStore_set o now data a1) in
  exists new,
    sessionMetaData a1 = Some {| sessionId := sid; expiresTime := new |}
    /\ sessionMetaData a2 = Some {| sessionId := sid; expiresTime := new |}
    /\ emitted_value a2
       = Some (encrypt_envelope o sid {| _data := data; _expires := new |}).
Proof.
  intros Hc Hd He. unfold cookieSessionStore_get. rewrite Hc, Hd, He. simpl.
  unfold cookieSessionStore_set, emitted_value. simpl. rewrite last_snoc.
  eexists. split; [reflexivity|].
  rewrite (policy_settles o now (_expires env)). split; reflexivity.
Qed.

(** X20. A session destroyed by the handler is not saved again: after a
    [destroy] that succeeds, the automatic save finds no data and makes
    no store call, although [isModified] reads [true]. *)
Theorem destroyed_session_is_not_saved {X : Type}
    (config : @SessionConfig rt X) (w : World) (d : JsVal) :
  userData w = Some d ->
  fst (store_destroy (sessionStore config) (shared w)) = Some true ->
  autosave config (snd (destroy config w)) = (None, snd (destroy config w))
  /\ trace (snd (destroy config w))
     = trace w ++ [StoreDestroy; ModifiedWrite true; ParserRemove]
  /\ modifiedState (snd (destroy config w)) = true.
Proof.
  intros Hd Hs. unfold destroy. rewrite Hd, call_eq, Hs. simpl.
  rewrite call_eq. simpl. unfold autosave. simpl.
  rewrite <- !app_assoc. simpl.
  destruct (autoSave config); auto.
Qed.

End Compositions.

(** A read and a write at time 700 under the renew policy: 300 are left,
    both move the expiry to 1700. *)
Lemma set_after_get_keeps_the_expiry_witness :
  read_cookie renew_options
    (requestInfo (echo_request renew_options scenario_cookie))
  = Some scenario_cookie
  /\ exists new,
       sessionMetaData
         (snd (cookieSessionStore_get renew_options 700 session_ulid
                 (echo_request renew_options scenario_cookie)))
       = Some {| sessionId := session_ulid; expiresTime := new |}
       /\ sessionMetaData
            (snd (cookieSessionStore_set renew_options 700 user_123
                    (snd (cookieSessionStore_get renew_options 700 session_ulid
                            (echo_request renew_options scenario_cookie)))))
          = Some {| sessionId := session_ulid; expiresTime := new |}
       /\ emitted_value
            (snd (cookieSessionStore_set renew_options 700 user_123
                    (snd (cookieSessionStore_get renew_options 700 session_ulid
                            (echo_request renew_options scenario_cookie)))))
          = Some (encrypt_envelope renew_options session_ulid
                    {| _data := user_123; _expires := new |}).
Proof.
  split; [reflexivity|].
  exact (set_after_get_keeps_the_expiry renew_options 700 session_ulid user_123
           (echo_request renew_options scenario_cookie) scenario_cookie
           {| _data := user_1; _expires := 1000 |} eq_refl eq_refl eq_refl).
Defined.

(** The loaded session destroyed, with the automatic save on. *)
Lemma destroyed_session_is_not_saved_witness :
  userData (loaded_world false) = Some user_123
  /\ autoSave autosave_config = true
  /\ autosave autosave_config (snd (destroy autosave_config (loaded_world false)))
     = (None, snd (destroy autosave_config (loaded_world false))).
Proof.
  split; [reflexivity|]. split; [reflexivity|].
  exact (proj1 (destroyed_session_is_not_saved autosave_config
                  (loaded_world false) user_123 eq_refl eq_refl)).
Defined.
